(** * binanceFuturesClient: a shallow embedding of [BinanceFutures]

    The Python class [BinanceFutures] of [binanceFuturesClient.py] wraps an
    exchange connector ([self.client], an instance of [UMFutures]) and keeps
    five private per-symbol dictionaries.  Every method is embedded here as a
    computation in a small state-and-exception monad (the three methods that
    change account settings, which touch nothing else, with the history of
    their calls passed explicitly):

    - the state holds the chronological list of connector calls issued so far
      and the private dictionaries (absent until the first successful load);
    - a raised Python exception is the outcome [Raise e]; [try ... except]
      is [try_except];
    - the connector is an oracle that answers each call from the history of
      the calls made before it, so that any exchange behaviour, including
      failures of single calls, is an instance;
    - Python [float] is IEEE 754 binary64, which is what the primitive
      [float] type computes with;
    - the rounding helper of the connector's package is a parameter of the
      methods that call it, and [helpers_round_step_size] is that helper;
    - responses of the connector that the code reads field by field are
      records holding those fields, a numeric field holding the value that the
      code obtains through [float(...)];
    - [print] and [pprint.pprint] are not modelled, apart from the read of
      the local variable that [close_all_positions] prints. *)

From Stdlib Require Import ZArith Floats.
From stdpp Require Import base option list strings gmap sorting.

Set Warnings "-inexact-float,-register-all".
Set Default Proof Using "Type".

Local Open Scope string_scope.
Local Open Scope list_scope.

(** ** Python values and exceptions *)

Inductive exn : Type :=
| ClientError (code : Z) (msg : string)
| KeyError (key : string)
| AttributeError (attr : string)
| UnboundLocalError (var : string)
| ValueError (msg : string)
| InvalidOperation.

Inductive pyval : Type :=
| PyNone
| PyBool (b : bool)
| PyInt (n : Z)
| PyFloat (x : float)
| PyStr (s : string)
| PyExn (e : exn)
| PyDict (items : list (string * pyval)).

(** A dict literal, in the order it is written. *)
Abbreviation dict := (list (string * pyval)).

Fixpoint dict_get (d : dict) (key : string) : option pyval :=
  match d with
  | [] => None
  | (k, v) :: rest => if String.eqb k key then Some v else dict_get rest key
  end.

Definition dict_keys (d : dict) : list string := map fst d.

(** [{"error": e}] *)
Definition error_dict (e : exn) : pyval := PyDict [("error", PyExn e)].

(** ** Responses of the connector *)

Record asset_balance : Type := AssetBalance
  { asset : string; balance : float }.

(** One entry of [item['filters']]; the code reads [tickSize] of a
    [PRICE_FILTER] entry and [minQty], [stepSize] of a [LOT_SIZE] entry. *)
Record symbol_filter : Type := SymbolFilter
  { filterType : string; tickSize : float; minQty : float; stepSize : float }.

Record symbol_info : Type := SymbolInfo
  { symbol : string;
    quantityPrecision : Z;
    pricePrecision : Z;
    filters : list symbol_filter }.

Record position : Type := Position
  { pos_symbol : string; positionAmt : float; positionSide : string }.

Record open_order : Type := OpenOrder
  { order_symbol : string }.

(** ** Connector calls *)

Inductive call : Type :=
| balance_call (recvWindow : Z)
| exchange_info_call
| ticker_price_call (pair : string)
| account_call
| get_orders_call
| new_order_call (kwargs : dict)
| cancel_open_orders_call (sym : string) (recvWindow : Z).

Inductive outcome (A : Type) : Type :=
| Return (a : A)
| Raise (e : exn).
Arguments Return {A} a.
Arguments Raise {A} e.

(** The exchange behind [self.client]: each method answers from the calls
    issued before it. *)
Record exchange : Type := Exchange
  { on_balance : list call -> Z -> outcome (list asset_balance);
    on_exchange_info : list call -> outcome (list symbol_info);
    on_ticker_price : list call -> string -> outcome float;
    on_account : list call -> outcome (list position);
    on_get_orders : list call -> outcome (list open_order);
    on_new_order : list call -> dict -> outcome pyval;
    on_cancel_open_orders : list call -> string -> Z -> outcome pyval }.

(** ** The private dictionaries of the instance *)

Record caches : Type := Caches
  { quantity_precisions : gmap string Z;
    prices_precisions : gmap string Z;
    step_sizes : gmap string float;
    tick_sizes : gmap string float;
    min_sizes : gmap string float }.

Definition empty_caches : caches := Caches ∅ ∅ ∅ ∅ ∅.

Record state : Type := State
  { history : list call;
    attrs : option caches }.

Definition initial_state : state := State [] None.

(** ** The monad *)

Definition M (A : Type) : Type := state -> outcome A * state.

Definition ret {A : Type} (a : A) : M A := fun s => (Return a, s).

Definition raise {A : Type} (e : exn) : M A := fun s => (Raise e, s).

Definition bind {A B : Type} (m : M A) (k : A -> M B) : M B :=
  fun s =>
    match m s with
    | (Return a, s') => k a s'
    | (Raise e, s') => (Raise e, s')
    end.

Definition try_except {A : Type} (body : M A) (handler : exn -> M A) : M A :=
  fun s =>
    match body s with
    | (Return a, s') => (Return a, s')
    | (Raise e, s') => handler e s'
    end.

Definition lift {A : Type} (o : outcome A) : M A := fun s => (o, s).

Declare Scope py_scope.
Delimit Scope py_scope with py.
Notation "x <- m ;; k" := (bind m (fun x => k))
  (at level 100, m at next level, right associativity) : py_scope.
Notation "m ;;; k" := (bind m (fun _ => k))
  (at level 100, right associativity) : py_scope.
Local Open Scope py_scope.

(** [for x in l: body x], threading the local variables [b] of the loop. *)
Fixpoint for_fold {A B : Type} (body : B -> A -> M B) (b : B) (l : list A) : M B :=
  match l with
  | [] => ret b
  | x :: rest => b' <- body b x ;; for_fold body b' rest
  end.

Definition for_each {A : Type} (l : list A) (body : A -> M unit) : M unit :=
  for_fold (fun _ x => body x) tt l.

(** Issuing a connector call: the call is appended to the history and the
    exchange's answer is returned or raised. *)
Definition issue {A : Type} (c : call) (answer : list call -> outcome A) : M A :=
  fun s => (answer (history s), State (history s ++ [c]) (attrs s)).

(** Reading [self.__name[key]]. *)
Definition getitem {V : Type} (name : string) (field : caches -> gmap string V)
    (key : string) : M V :=
  fun s =>
    match attrs s with
    | None => (Raise (AttributeError name), s)
    | Some c =>
        match field c !! key with
        | Some v => (Return v, s)
        | None => (Raise (KeyError key), s)
        end
    end.

Definition set_attrs (c : caches) : M unit :=
  fun s => (Return tt, State (history s) (Some c)).

Definition update_attrs (name : string) (f : caches -> caches) : M unit :=
  fun s =>
    match attrs s with
    | None => (Raise (AttributeError name), s)
    | Some c => (Return tt, State (history s) (Some (f c)))
    end.

Local Open Scope float_scope.

Section BinanceFutures.

(** [self.client] *)
Variable client : exchange.

(** [binance.helpers.round_step_size], a function of the connector's
    package: it returns a float or raises. *)
Variable round_step_size : float -> float -> outcome float.

Definition client_balance (recvWindow : Z) : M (list asset_balance) :=
  issue (balance_call recvWindow) (fun h => on_balance client h recvWindow).
Definition client_exchange_info : M (list symbol_info) :=
  issue exchange_info_call (on_exchange_info client).
Definition client_ticker_price (pair : string) : M float :=
  issue (ticker_price_call pair) (fun h => on_ticker_price client h pair).
Definition client_account : M (list position) :=
  issue account_call (on_account client).
Definition client_get_orders : M (list open_order) :=
  issue get_orders_call (on_get_orders client).
Definition client_new_order (kwargs : dict) : M pyval :=
  issue (new_order_call kwargs) (fun h => on_new_order client h kwargs).
Definition client_cancel_open_orders (sym : string) (recvWindow : Z) : M pyval :=
  issue (cancel_open_orders_call sym recvWindow)
        (fun h => on_cancel_open_orders client h sym recvWindow).

(** *** get_balance *)

(** The [for r in response] loop with its [break]. *)
Fixpoint scan_balance (coin : string) (response : list asset_balance)
    (bal : pyval) : pyval :=
  match response with
  | [] => bal
  | r :: rest =>
      if bool_decide (asset r = coin) then PyFloat (balance r)
      else scan_balance coin rest bal
  end.

Definition get_balance (coin : string) : M pyval :=
  let bal := PyInt 0 in
  try_except
    (response <- client_balance 6000 ;;
     ret (scan_balance coin response bal))
    (fun e => ret (PyExn e)).

(** *** get_precisions *)

Definition load_filter (sym : string) (f : symbol_filter) : M unit :=
  (if bool_decide (filterType f = "PRICE_FILTER")
   then update_attrs "__tick_sizes"
          (fun c => Caches (quantity_precisions c) (prices_precisions c)
                      (step_sizes c) (<[sym := tickSize f]> (tick_sizes c))
                      (min_sizes c))
   else ret tt) ;;;
  (if bool_decide (filterType f = "LOT_SIZE")
   then update_attrs "__min_sizes"
          (fun c => Caches (quantity_precisions c) (prices_precisions c)
                      (step_sizes c) (tick_sizes c)
                      (<[sym := minQty f]> (min_sizes c))) ;;;
        update_attrs "__step_sizes"
          (fun c => Caches (quantity_precisions c) (prices_precisions c)
                      (<[sym := stepSize f]> (step_sizes c)) (tick_sizes c)
                      (min_sizes c))
   else ret tt).

Definition load_item (item : symbol_info) : M unit :=
  update_attrs "__quantity_precisions"
    (fun c => Caches (<[symbol item := quantityPrecision item]> (quantity_precisions c))
                (prices_precisions c) (step_sizes c) (tick_sizes c) (min_sizes c)) ;;;
  update_attrs "__prices_precisions"
    (fun c => Caches (quantity_precisions c)
                (<[symbol item := pricePrecision item]> (prices_precisions c))
                (step_sizes c) (tick_sizes c) (min_sizes c)) ;;;
  for_each (filters item) (load_filter (symbol item)).

Definition get_precisions : M pyval :=
  try_except
    (info <- client_exchange_info ;;
     set_attrs empty_caches ;;;
     for_each info load_item ;;;
     ret PyNone)
    (fun e => ret PyNone).

(** [__init__] *)
Definition init : M pyval := get_precisions.

(** *** get_pair_parameters *)

Definition get_pair_parameters (pair : string) : M pyval :=
  try_except
    (min_size <- getitem "__min_sizes" min_sizes pair ;;
     price <- client_ticker_price pair ;;
     price_precision <- getitem "__prices_precisions" prices_precisions pair ;;
     quantity_precision <- getitem "__quantity_precisions" quantity_precisions pair ;;
     step_size <- getitem "__step_sizes" step_sizes pair ;;
     tick_size <- (if bool_decide (pair ≠ "BTCUSDT")
                   then getitem "__tick_sizes" tick_sizes pair
                   else ret 0.1) ;;
     let params :=
       [ ("min_size", PyFloat min_size);
         ("price", PyFloat price);
         ("price_precision", PyInt price_precision);
         ("quantity_precision", PyInt quantity_precision);
         ("step_size", PyFloat step_size);
         ("tick_size", PyFloat tick_size) ] in
     ret (PyDict params))
    (fun e => ret (error_dict e)).

(** *** make_order *)

Definition make_order (pair side : string) (quantity : pyval) (market : string)
    (positionSide : string) (timeInForce price stopPrice : pyval)
    (workingType : string) (priceProtect closePosition : bool) : M pyval :=
  let orderObj :=
    [ ("symbol", PyStr pair);
      ("side", PyStr side);
      ("positionSide", PyStr positionSide);
      ("type", PyStr market);
      ("quantity", quantity);
      ("timeInForce", timeInForce);
      ("price", price);
      ("stopPrice", stopPrice);
      ("workingType", PyStr workingType);
      ("priceProtect", PyBool priceProtect);
      ("closePosition", PyBool closePosition) ] in
  try_except
    (order <- client_new_order (orderObj ++ [("recvWindow", PyInt 6000)]) ;;
     ret order)
    (fun e => ret (error_dict e)).

(** *** market_order

    The two calls leave [positionSide], [timeInForce], [price],
    [stopPrice], [workingType], [priceProtect] and [closePosition] to the
    defaults of [make_order]. *)

Definition market_order (pair side : string) (precized_quantity : pyval) : M pyval :=
  try_except
    (order <- (if bool_decide (side = "long")
               then make_order pair "BUY" precized_quantity "MARKET"
                      "BOTH" PyNone PyNone PyNone "CONTRACT_PRICE" false false
               else make_order pair "SELL" precized_quantity "MARKET"
                      "BOTH" PyNone PyNone PyNone "CONTRACT_PRICE" false false) ;;
     ret order)
    (fun e => ret (error_dict e)).

(** *** stop_loss_order and take_profit_order *)

(** The test of the [for pos in positions] loops, for the long and for the
    short branch.  A loop issues no call before its test holds of a position,
    and returns after the one order it then places: the methods below branch
    on whether some position passes the test. *)
Definition open_long (pair : string) (pos : position) : bool :=
  (bool_decide (pos_symbol pos = pair) && (0 <? abs (positionAmt pos)))
  && ((0 <? positionAmt pos) && bool_decide (positionSide pos = "LONG")).

Definition open_short (pair : string) (pos : position) : bool :=
  (bool_decide (pos_symbol pos = pair) && (0 <? abs (positionAmt pos)))
  && ((positionAmt pos <? 0) && bool_decide (positionSide pos = "SHORT")).

Definition stop_loss_order (pair side : string) (precized_quantity : pyval)
    (stoploss tick_size : float) : M pyval :=
  try_except
    (price <- client_ticker_price pair ;;
     positions <- client_account ;;
     if bool_decide (side = "long") then
       stoploss_price <- lift (round_step_size (price * (1 - stoploss / 100)) tick_size) ;;
       if existsb (open_long pair) positions then
         make_order pair "SELL" PyNone "STOP_MARKET" "BOTH" (PyStr "GTE_GTC") PyNone
           (PyFloat stoploss_price) "MARK_PRICE" true true
       else
         buy_order <- market_order pair side precized_quantity ;;
         make_order pair "SELL" PyNone "STOP_MARKET" "BOTH" (PyStr "GTE_GTC") PyNone
           (PyFloat stoploss_price) "MARK_PRICE" true true
     else
       stoploss_price <- lift (round_step_size (price * (1 + stoploss / 100)) tick_size) ;;
       if existsb (open_short pair) positions then
         make_order pair "BUY" PyNone "STOP_MARKET" "BOTH" (PyStr "GTE_GTC") PyNone
           (PyFloat stoploss_price) "MARK_PRICE" true true
       else
         sell_order <- market_order pair side precized_quantity ;;
         make_order pair "BUY" PyNone "STOP_MARKET" "BOTH" (PyStr "GTE_GTC") PyNone
           (PyFloat stoploss_price) "MARK_PRICE" true true)
    (fun e => ret (error_dict e)).

Definition take_profit_order (pair side : string) (precized_quantity : pyval)
    (takeprofit tick_size : float) : M pyval :=
  try_except
    (price <- client_ticker_price pair ;;
     positions <- client_account ;;
     if bool_decide (side = "long") then
       takeprofit_price <- lift (round_step_size (price * (1 + takeprofit / 100)) tick_size) ;;
       if existsb (open_long pair) positions then
         make_order pair "SELL" PyNone "TAKE_PROFIT_MARKET" "BOTH" (PyStr "GTE_GTC") PyNone
           (PyFloat takeprofit_price) "MARK_PRICE" true true
       else
         buy_order <- market_order pair side precized_quantity ;;
         make_order pair "SELL" PyNone "TAKE_PROFIT_MARKET" "BOTH" (PyStr "GTE_GTC") PyNone
           (PyFloat takeprofit_price) "MARK_PRICE" true true
     else
       takeprofit_price <- lift (round_step_size (price * (1 - takeprofit / 100)) tick_size) ;;
       if existsb (open_short pair) positions then
         make_order pair "BUY" PyNone "TAKE_PROFIT_MARKET" "BOTH" (PyStr "GTE_GTC") PyNone
           (PyFloat takeprofit_price) "MARK_PRICE" true true
       else
         sell_order <- market_order pair side precized_quantity ;;
         make_order pair "BUY" PyNone "TAKE_PROFIT_MARKET" "BOTH" (PyStr "GTE_GTC") PyNone
           (PyFloat takeprofit_price) "MARK_PRICE" true true)
    (fun e => ret (error_dict e)).

(** *** close_all_positions

    [order] is the local variable of that name: unbound until a branch of
    the loop assigns it, read by [pprint.pprint(order)]. *)

Definition close_position (order : option pyval) (pos : position) : M (option pyval) :=
  if 0 <? abs (positionAmt pos) then
    order' <- (if 0 <? positionAmt pos then
                 o <- market_order (pos_symbol pos) "short" (PyFloat (positionAmt pos)) ;;
                 ret (Some o)
               else if positionAmt pos <? 0 then
                 o <- market_order (pos_symbol pos) "long" (PyFloat (- positionAmt pos)) ;;
                 ret (Some o)
               else ret order) ;;
    match order' with
    | Some _ => ret order'
    | None => raise (UnboundLocalError "order")
    end
  else ret order.

Definition close_all_positions : M pyval :=
  try_except
    (positions <- client_account ;;
     for_fold close_position None positions ;;;
     let message := PyStr "close-done" in
     ret message)
    (fun e => ret (error_dict e)).

(** *** cancel_all_orders *)

Definition cancel_all_orders : M pyval :=
  try_except
    (orders <- client_get_orders ;;
     let order_symbols := map order_symbol orders in
     for_each order_symbols
       (fun sym => response <- client_cancel_open_orders sym 6000 ;; ret tt) ;;;
     let message := PyStr "cancel-done" in
     ret message)
    (fun e => ret (error_dict e)).

(** *** limit_order *)

Definition limit_order (pair side : string) (precized_quantity : pyval)
    (limit_price tick_size : float) : M pyval :=
  try_except
    (limit_price_round <- lift (round_step_size limit_price tick_size) ;;
     order <- (if bool_decide (side = "long")
               then make_order pair "BUY" precized_quantity "LIMIT" "BOTH" (PyStr "GTC")
                      (PyFloat limit_price_round) PyNone "CONTRACT_PRICE" false false
               else make_order pair "SELL" precized_quantity "LIMIT" "BOTH" (PyStr "GTC")
                      (PyFloat limit_price_round) PyNone "CONTRACT_PRICE" false false) ;;
     ret order)
    (fun e => ret (error_dict e)).

(** *** get_futures *)

(** [s[-4:]]: the last four characters, or all of [s] when it has fewer. *)
Definition last4 (s : string) : string :=
  String.substring (String.length s - 4) 4 s.

(** The order of [list.sort()] on strings: lexicographic, character code by
    character code. *)
Definition string_le (s1 s2 : string) : Prop := String.leb s1 s2 = true.

#[global] Instance string_le_dec : RelDecision string_le :=
  fun s1 s2 => decide (String.leb s1 s2 = true).

(** [all_futures.sort()]; the order being total and antisymmetric, the sorted
    list does not depend on the sorting algorithm. *)
Definition sort_strings (l : list string) : list string := merge_sort string_le l.

(** What [get_futures] returns: the list [all_futures] or the exception. *)
Inductive futures : Type :=
| Futures (all_futures : list string)
| FuturesError (e : exn).

Definition get_futures (coin : string) : M futures :=
  try_except
    (response <- client_exchange_info ;;
     let all_futures :=
       map symbol
         (List.filter (fun r => bool_decide (last4 (symbol r) = coin)) response) in
     let all_futures := sort_strings all_futures in
     ret (Futures all_futures))
    (fun e => ret (FuturesError e)).

End BinanceFutures.

(** ** Observing a run *)

(** The value a method returns (or the exception it lets through), the state
    it leaves, and the connector calls it issued, in order. *)
Definition result {A : Type} (m : M A) (s : state) : outcome A := fst (m s).

Definition final {A : Type} (m : M A) (s : state) : state := snd (m s).

Definition issued {A : Type} (m : M A) (s : state) : list call :=
  drop (length (history s)) (history (final m s)).

(** The keyword arguments of the [new_order] calls among [l]. *)
Fixpoint orders (l : list call) : list dict :=
  match l with
  | [] => []
  | new_order_call kw :: rest => kw :: orders rest
  | _ :: rest => orders rest
  end.

(** The symbols of the [cancel_open_orders] calls among [l]. *)
Fixpoint cancels (l : list call) : list string :=
  match l with
  | [] => []
  | cancel_open_orders_call sym _ :: rest => sym :: cancels rest
  | _ :: rest => cancels rest
  end.

(** What [make_order] turns a connector answer into. *)
Definition caught (o : outcome pyval) : outcome pyval :=
  match o with
  | Return order => Return order
  | Raise e => Return (error_dict e)
  end.

(** A value that tells its receiver of an error: an exception object or a
    dict with an ["error"] entry. *)
Definition is_error_value (v : pyval) : bool :=
  match v with
  | PyExn _ => true
  | PyDict d => match dict_get d "error" with Some _ => true | None => false end
  | _ => false
  end.

Definition surfaces_error (o : outcome pyval) : bool :=
  match o with
  | Raise _ => true
  | Return v => is_error_value v
  end.

(** ** The claims' vocabulary *)

Inductive protective : Type := StopLoss | TakeProfit.

Definition protective_type (kind : protective) : string :=
  match kind with
  | StopLoss => "STOP_MARKET"
  | TakeProfit => "TAKE_PROFIT_MARKET"
  end.

(** The method that places a protective order of the given kind. *)
Definition place (kind : protective) (client : exchange)
    (round_step_size : float -> float -> outcome float) :
    string -> string -> pyval -> float -> float -> M pyval :=
  match kind with
  | StopLoss => stop_loss_order client round_step_size
  | TakeProfit => take_profit_order client round_step_size
  end.

(** The requested direction: long for the side ["long"], short otherwise. *)
Definition is_long (side : string) : bool := bool_decide (side = "long").

(** The trigger before rounding, in the words of the specification:
    subtract for a long stop-loss and a short take-profit, add for a long
    take-profit and a short stop-loss. *)
Definition spec_trigger (kind : protective) (long : bool) (price pct : float) : float :=
  match kind, long with
  | StopLoss, true | TakeProfit, false => price * (1 - pct / 100)
  | StopLoss, false | TakeProfit, true => price * (1 + pct / 100)
  end.

(** A position for the same symbol, with nonzero amount whose sign matches
    the direction, and whose positionSide matches it. *)
Definition matching_position (pair : string) (long : bool) (pos : position) : Prop :=
  pos_symbol pos = pair
  /\ (positionAmt pos =? 0) = false
  /\ (if long then 0 <? positionAmt pos else positionAmt pos <? 0) = true
  /\ positionSide pos = (if long then "LONG" else "SHORT").

(** An order is protective when its type is one of the two trigger types. *)
Definition is_protective (kw : dict) : Prop :=
  dict_get kw "type" = Some (PyStr "STOP_MARKET")
  \/ dict_get kw "type" = Some (PyStr "TAKE_PROFIT_MARKET").

(** A positive or negative amount. *)
Definition nonzero_amount (pos : position) : bool :=
  (0 <? positionAmt pos) || (positionAmt pos <? 0).

(** The market order that closes [pos], in the words of the specification:
    SELL for a positive amount, BUY for a negative one, sized to the absolute
    amount. *)
Definition closes (pos : position) (kw : dict) : Prop :=
  dict_get kw "symbol" = Some (PyStr (pos_symbol pos))
  /\ dict_get kw "type" = Some (PyStr "MARKET")
  /\ dict_get kw "side" = Some (PyStr (if 0 <? positionAmt pos then "SELL" else "BUY"))
  /\ dict_get kw "quantity" = Some (PyFloat (abs (positionAmt pos))).


(** ** Keyword arguments and traces *)

(** The keyword arguments [make_order] hands to [new_order]:
    [**orderObj, recvWindow= 6000]. *)
Definition order_kwargs (pair side : string) (quantity : pyval) (market : string)
    (positionSide : string) (timeInForce price stopPrice : pyval)
    (workingType : string) (priceProtect closePosition : bool) : dict :=
  [ ("symbol", PyStr pair);
    ("side", PyStr side);
    ("positionSide", PyStr positionSide);
    ("type", PyStr market);
    ("quantity", quantity);
    ("timeInForce", timeInForce);
    ("price", price);
    ("stopPrice", stopPrice);
    ("workingType", PyStr workingType);
    ("priceProtect", PyBool priceProtect);
    ("closePosition", PyBool closePosition);
    ("recvWindow", PyInt 6000) ].

(** The keyword arguments of the order sent by [market_order]. *)
Definition market_kwargs (pair side : string) (precized_quantity : pyval) : dict :=
  order_kwargs pair (if is_long side then "BUY" else "SELL") precized_quantity "MARKET"
    "BOTH" PyNone PyNone PyNone "CONTRACT_PRICE" false false.

(** The keyword arguments of the order sent by [stop_loss_order] and
    [take_profit_order] once the trigger price is [trigger]. *)
Definition protective_kwargs (kind : protective) (pair side : string) (trigger : float) : dict :=
  order_kwargs pair (if is_long side then "SELL" else "BUY") PyNone (protective_type kind)
    "BOTH" (PyStr "GTE_GTC") PyNone (PyFloat trigger) "MARK_PRICE" true true.

(** The loop test of the branch taken for [side]. *)
Definition open_for (pair side : string) (pos : position) : bool :=
  if is_long side then open_long pair pos else open_short pair pos.

(** The calls a protective-order method issues after the history [h]. *)
Definition place_calls (client : exchange)
    (round_step_size : float -> float -> outcome float) (kind : protective)
    (pair side : string) (precized_quantity : pyval) (pct tick_size : float)
    (h : list call) : list call :=
  ticker_price_call pair ::
  match on_ticker_price client h pair with
  | Raise _ => []
  | Return price =>
      account_call ::
      match on_account client (h ++ [ticker_price_call pair]) with
      | Raise _ => []
      | Return positions =>
          match round_step_size (spec_trigger kind (is_long side) price pct) tick_size with
          | Raise _ => []
          | Return trigger =>
              if existsb (open_for pair side) positions
              then [new_order_call (protective_kwargs kind pair side trigger)]
              else [new_order_call (market_kwargs pair side precized_quantity);
                    new_order_call (protective_kwargs kind pair side trigger)]
          end
      end
  end.

(** The orders [close_all_positions] sends for a list of positions. *)
Definition closing_kwargs (pos : position) : list dict :=
  if 0 <? positionAmt pos
  then [market_kwargs (pos_symbol pos) "short" (PyFloat (positionAmt pos))]
  else if positionAmt pos <? 0
  then [market_kwargs (pos_symbol pos) "long" (PyFloat (- positionAmt pos))]
  else [].

(** The symbols [cancel_all_orders] gets to, after the history [h]: it stops
    behind the first call that raises. *)
Fixpoint cancelled (client : exchange) (h : list call) (symbols : list string) :
    list string * option exn :=
  match symbols with
  | [] => ([], None)
  | sym :: rest =>
      match on_cancel_open_orders client h sym 6000 with
      | Raise e => ([sym], Some e)
      | Return _ =>
          let '(done, failure) :=
            cancelled client (h ++ [cancel_open_orders_call sym 6000]) rest in
          (sym :: done, failure)
      end
  end.

(** The dictionaries a load builds from an exchange listing, starting from
    empty ones. *)
Definition loaded_filter (sym : string) (c : caches) (f : symbol_filter) : caches :=
  let c1 :=
    if bool_decide (filterType f = "PRICE_FILTER")
    then Caches (quantity_precisions c) (prices_precisions c) (step_sizes c)
           (<[sym := tickSize f]> (tick_sizes c)) (min_sizes c)
    else c in
  if bool_decide (filterType f = "LOT_SIZE")
  then Caches (quantity_precisions c1) (prices_precisions c1)
         (<[sym := stepSize f]> (step_sizes c1)) (tick_sizes c1)
         (<[sym := minQty f]> (min_sizes c1))
  else c1.

Definition loaded_item (c : caches) (item : symbol_info) : caches :=
  foldl (loaded_filter (symbol item))
    (Caches (<[symbol item := quantityPrecision item]> (quantity_precisions c))
       (<[symbol item := pricePrecision item]> (prices_precisions c))
       (step_sizes c) (tick_sizes c) (min_sizes c))
    (filters item).

Definition loaded (info : list symbol_info) : caches :=
  foldl loaded_item empty_caches info.

(** A load enters into each dictionary only symbols of the listing. *)
Definition keys_within (c : caches) (symbols : list string) : Prop :=
  forall sym : string,
    (is_Some (quantity_precisions c !! sym) \/ is_Some (prices_precisions c !! sym)
     \/ is_Some (step_sizes c !! sym) \/ is_Some (tick_sizes c !! sym)
     \/ is_Some (min_sizes c !! sym)) ->
    sym ∈ symbols.

(** A payload that leaves out what is unset: no key is bound to [None]. *)
Definition omits_unset (kw : dict) : Prop :=
  forall key : string, dict_get kw key <> Some PyNone.

(** One cancellation per distinct symbol: the cancelled symbols are those of
    the open orders, each of them once. *)
Definition once_per_symbol (open_orders : list open_order) (calls : list string) : Prop :=
  NoDup calls /\ forall sym : string, sym ∈ calls <-> sym ∈ map order_symbol open_orders.

(** ** Example exchanges *)

Definition ack : pyval := PyDict [("code", PyInt 200)].

(** An exchange whose answers do not depend on the history. *)
Definition fixed_exchange (balances : outcome (list asset_balance))
    (info : outcome (list symbol_info)) (price : outcome float)
    (positions : outcome (list position)) (open_orders : outcome (list open_order))
    (order_answer : dict -> outcome pyval) (cancel_answer : string -> outcome pyval) :
    exchange :=
  Exchange (fun _ _ => balances) (fun _ => info) (fun _ _ => price)
    (fun _ => positions) (fun _ => open_orders)
    (fun _ kw => order_answer kw) (fun _ sym _ => cancel_answer sym).

Definition btc_info : symbol_info :=
  SymbolInfo "BTCUSDT" 3 2
    [ SymbolFilter "PRICE_FILTER" 0.01 0 0;
      SymbolFilter "LOT_SIZE" 0 0.001 0.001 ].

Definition eth_info : symbol_info :=
  SymbolInfo "ETHUSDT" 3 2
    [ SymbolFilter "PRICE_FILTER" 0.01 0 0;
      SymbolFilter "LOT_SIZE" 0 0.001 0.001 ].

(** A healthy exchange: a long BTCUSDT position of 0.5, a short ETHUSDT
    position of 2.0 and a flat XRPUSDT one; two open orders on BTCUSDT and
    one on ETHUSDT. *)
Definition healthy : exchange :=
  fixed_exchange
    (Return [AssetBalance "BNB" 1; AssetBalance "USDT" 250.5; AssetBalance "USDT" 7])
    (Return [btc_info; eth_info])
    (Return 100)
    (Return [Position "BTCUSDT" 0.5 "LONG"; Position "ETHUSDT" (-2) "SHORT";
             Position "XRPUSDT" 0 "BOTH"])
    (Return [OpenOrder "BTCUSDT"; OpenOrder "BTCUSDT"; OpenOrder "ETHUSDT"])
    (fun _ => Return ack)
    (fun _ => Return ack).

(** The same exchange rejecting every order and every cancellation that
    names BTCUSDT. *)
Definition rejected : exn := ClientError (-2019) "Margin is insufficient.".

Definition btc_failing : exchange :=
  fixed_exchange
    (Return [AssetBalance "BNB" 1])
    (Return [btc_info; eth_info])
    (Return 100)
    (Return [Position "BTCUSDT" 0.5 "LONG"; Position "ETHUSDT" (-2) "SHORT"])
    (Return [OpenOrder "BTCUSDT"; OpenOrder "ETHUSDT"])
    (fun kw => match dict_get kw "symbol" with
               | Some (PyStr "BTCUSDT") => Raise rejected
               | _ => Return ack
               end)
    (fun sym => if bool_decide (sym = "BTCUSDT") then Raise rejected else Return ack).

(** An exchange whose listing call fails. *)
Definition unreachable : exn := ClientError (-1001) "Internal error; unable to process your request.".

Definition listing_down : exchange :=
  fixed_exchange (Raise unreachable) (Raise unreachable) (Return 100)
    (Return []) (Return []) (fun _ => Return ack) (fun _ => Return ack).

(** A rounding helper for the examples: the multiple of [step] nearest to
    [quantity], for quantities of moderate size. *)
Definition nearest_step (quantity step : float) : outcome float :=
  Return (((quantity / step + 0x1p52) - 0x1p52) * step).

(** The instance after a successful [__init__] against [healthy]. *)
Definition healthy_state : state := final (init healthy) initial_state.

(** ** Account settings

    [set_leverage], [set_margin_type] and [change_position_mode] use four
    further methods of the connector and nothing else of the instance; they
    are written with the history of those calls passed explicitly. *)

Inductive setting_call : Type :=
| change_leverage_call (pair : string) (leverage : Z) (recvWindow : Z)
| change_margin_type_call (pair margin_type : string) (recvWindow : Z)
| get_position_mode_call
| change_position_mode_call (dualSidePosition : bool) (recvWindow : Z).

Record settings_exchange : Type := SettingsExchange
  { on_change_leverage : list setting_call -> string -> Z -> Z -> outcome pyval;
    on_change_margin_type : list setting_call -> string -> string -> Z -> outcome pyval;
    (** the field [dualSidePosition] of the answer *)
    on_get_position_mode : list setting_call -> outcome bool;
    on_change_position_mode : list setting_call -> bool -> Z -> outcome pyval }.

(** Each method ends its [try] block without [return], and its handler only
    prints: it returns [None] either way. *)
Definition set_leverage (client : settings_exchange) (pair : string) (leverage : Z)
    (h : list setting_call) : outcome pyval * list setting_call :=
  match on_change_leverage client h pair leverage 6000 with
  | Return leverage_response =>
      (Return PyNone, h ++ [change_leverage_call pair leverage 6000])
  | Raise e => (Return PyNone, h ++ [change_leverage_call pair leverage 6000])
  end.

Definition set_margin_type (client : settings_exchange) (pair margin_type : string)
    (h : list setting_call) : outcome pyval * list setting_call :=
  match on_change_margin_type client h pair margin_type 6000 with
  | Return margin_response =>
      (Return PyNone, h ++ [change_margin_type_call pair margin_type 6000])
  | Raise e => (Return PyNone, h ++ [change_margin_type_call pair margin_type 6000])
  end.

Definition change_position_mode (client : settings_exchange) (mode : string)
    (h : list setting_call) : outcome pyval * list setting_call :=
  match on_get_position_mode client h with
  | Raise e => (Return PyNone, h ++ [get_position_mode_call])
  | Return is_dual_side =>
      let h1 := h ++ [get_position_mode_call] in
      if is_dual_side && bool_decide (mode = "one-way") then
        match on_change_position_mode client h1 false 6000 with
        | Return res => (Return PyNone, h1 ++ [change_position_mode_call false 6000])
        | Raise e => (Return PyNone, h1 ++ [change_position_mode_call false 6000])
        end
      else if negb is_dual_side && bool_decide (mode = "hedge") then
        match on_change_position_mode client h1 true 6000 with
        | Return res => (Return PyNone, h1 ++ [change_position_mode_call true 6000])
        | Raise e => (Return PyNone, h1 ++ [change_position_mode_call true 6000])
        end
      else (Return PyNone, h1)
  end.

(** The mode changes requested among [l]. *)
Fixpoint mode_changes (l : list setting_call) : list bool :=
  match l with
  | [] => []
  | change_position_mode_call b _ :: rest => b :: mode_changes rest
  | _ :: rest => mode_changes rest
  end.

(** ** The listing, symbol by symbol *)

(** The entries of the listing for [sym], and their filters of one type, in
    the order of the listing. *)
Definition items_of (sym : string) (info : list symbol_info) : list symbol_info :=
  List.filter (fun item => bool_decide (symbol item = sym)) info.

Definition filters_of (sym ftype : string) (info : list symbol_info) : list symbol_filter :=
  List.filter (fun f => bool_decide (filterType f = ftype))
    (flat_map filters (items_of sym info)).

(** The keyword arguments of the order sent by [limit_order] once the price
    is rounded. *)
Definition limit_kwargs (pair side : string) (precized_quantity : pyval)
    (limit_price_round : float) : dict :=
  order_kwargs pair (if is_long side then "BUY" else "SELL") precized_quantity "LIMIT"
    "BOTH" (PyStr "GTC") (PyFloat limit_price_round) PyNone "CONTRACT_PRICE" false false.

(** An exchange in hedge mode that accepts every setting. *)
Definition hedging : settings_exchange :=
  SettingsExchange (fun _ _ _ _ => Return ack) (fun _ _ _ _ => Return ack)
    (fun _ => Return true) (fun _ _ _ => Return ack).

(** A listing in which ETHUSDT has lost its LOT_SIZE filter and LTCUSDT its
    PRICE_FILTER. *)
Definition thin_listing : list symbol_info :=
  [ btc_info;
    SymbolInfo "ETHUSDT" 3 2 [SymbolFilter "PRICE_FILTER" 0.01 0 0];
    SymbolInfo "LTCUSDT" 3 2 [SymbolFilter "LOT_SIZE" 0 0.001 0.001];
    SymbolInfo "BTCBUSD" 3 1 [] ].

Definition thin : exchange :=
  fixed_exchange (Return []) (Return thin_listing) (Return 100) (Return []) (Return [])
    (fun _ => Return ack) (fun _ => Return ack).

(** A rounding helper that rejects a step of zero. *)
Definition strict_step (quantity step : float) : outcome float :=
  if step =? 0 then Raise (ValueError "step") else nearest_step quantity step.

(** An exchange without positions that rejects every market order. *)
Definition entry_rejecting : exchange :=
  fixed_exchange (Return []) (Return []) (Return 100) (Return []) (Return [])
    (fun kw => match dict_get kw "type" with
               | Some (PyStr "MARKET") => Raise rejected
               | _ => Return ack
               end)
    (fun _ => Return ack).

(** An account in one-way mode holding 0.5 BTCUSDT. *)
Definition one_way : exchange :=
  fixed_exchange (Return []) (Return []) (Return 100)
    (Return [Position "BTCUSDT" 0.5 "BOTH"]) (Return [])
    (fun _ => Return ack) (fun _ => Return ack).

(** An exchange whose account and order queries fail. *)
Definition account_down : exchange :=
  fixed_exchange (Raise unreachable) (Return []) (Return 100) (Raise unreachable)
    (Raise unreachable) (fun _ => Return ack) (fun _ => Return ack).

(** A listing that names ETHUSDT twice, the second time with other
    precisions and another tick size, and without a LOT_SIZE filter. *)
Definition relisted : exchange :=
  fixed_exchange (Return [])
    (Return [btc_info; eth_info;
             SymbolInfo "ETHUSDT" 2 1 [SymbolFilter "PRICE_FILTER" 0.05 0 0]])
    (Return 100) (Return []) (Return []) (fun _ => Return ack) (fun _ => Return ack).

(** A listing out of order in which ETHUSDT comes twice. *)
Definition shuffled : exchange :=
  fixed_exchange (Return [])
    (Return [eth_info; SymbolInfo "BTCBUSD" 3 1 []; btc_info; eth_info])
    (Return 100) (Return []) (Return []) (fun _ => Return ack) (fun _ => Return ack).

(** ** The rounding helper and the connector's payload *)

Local Open Scope Z_scope.

(** A [decimal.Decimal]: not-a-number, an infinity, or sign, coefficient and
    exponent of the number (-1)^sign * coefficient * 10^exponent. *)
Inductive decimal : Type :=
| DNaN
| DInfinity (negative : bool)
| DFinite (negative : bool) (coefficient : Z) (exponent : Z).

(** The integer nearest to [num / den], the even one of two equally near. *)
Definition round_half_even (num den : Z) : Z :=
  let q := num / den in
  match 2 * (num mod den) ?= den with
  | Lt => q
  | Gt => q + 1
  | Eq => if Z.even q then q else q + 1
  end.

(** [float(d)]: the binary64 number nearest to the decimal. *)
Definition float_of_decimal (d : decimal) : float :=
  match d with
  | DNaN => nan
  | DInfinity negative => if negative then neg_infinity else infinity
  | DFinite negative c k =>
      if c =? 0 then (if negative then neg_zero else zero)
      else if 0 <=? k
      then SF2Prim (binary_normalize prec emax (cond_Zopp negative (c * 10 ^ k)) 0 negative)
      else SF2Prim (SFdiv prec emax (S754_finite negative (Z.to_pos c) 0)
                      (S754_finite false (Z.to_pos (10 ^ (- k))) 0))
  end.

(** The coefficient of the multiple of 10^k nearest to m * 2^e. *)
Definition nearest_coefficient (m e k : Z) : Z :=
  round_half_even (m * 2 ^ Z.max e 0 * 10 ^ Z.max (- k) 0)
    (2 ^ Z.max (- e) 0 * 10 ^ Z.max k 0).

(** [str(x)] of a float writes the shortest decimal that reads back as [x]:
    the nearest multiple of 10^k for the largest such k, searched downwards. *)
Fixpoint shortest (x : float) (negative : bool) (m e k : Z) (fuel : nat) : Z * Z :=
  let c := nearest_coefficient m e k in
  match fuel with
  | O => (c, k)
  | S fuel' =>
      if PrimFloat.eqb (float_of_decimal (DFinite negative c k)) x then (c, k)
      else shortest x negative m e (k - 1) fuel'
  end.

(** [Decimal(str(x))].  The search starts above the decimal exponent of [x]
    and ends, at the latest, with seventeen digits. *)
Definition decimal_of_float (x : float) : decimal :=
  match Prim2SF x with
  | S754_nan => DNaN
  | S754_infinity negative => DInfinity negative
  | S754_zero negative => DFinite negative 0 (-1)
  | S754_finite negative m e =>
      let k0 := (Z.log2 (Zpos m) + e + 1) * 30103 / 100000 + 2 in
      let '(c, k) := shortest x negative (Zpos m) e k0 25 in
      DFinite negative c k
  end.

Fixpoint digits_fuel (fuel : nat) (n : Z) : Z :=
  match fuel with
  | O => 0
  | S fuel' => if n =? 0 then 0 else 1 + digits_fuel fuel' (n / 10)
  end.

(** The number of decimal digits of [n]. *)
Definition digits (n : Z) : Z := digits_fuel (Z.to_nat (Z.log2 n + 2)) n.

(** The result of a [Decimal] operation is rounded to the 28 digits of the
    default context. *)
Definition round28 (c k : Z) : Z * Z :=
  let d := digits c - 28 in
  if 0 <? d then (round_half_even c (10 ^ d), k + d) else (c, k).

(** The two decimals brought to their common exponent: the coefficients of
    quantity and step at the exponent [Z.min kq ks]. *)
Definition aligned (cq kq cs ks : Z) : Z * Z :=
  (cq * 10 ^ (kq - Z.min kq ks), cs * 10 ^ (ks - Z.min kq ks)).

(** The number of whole steps in the quantity, and the float that the helper
    returns for [n] steps of the sign of the quantity. *)
Definition whole_steps (cq kq cs ks : Z) : Z :=
  fst (aligned cq kq cs ks) / snd (aligned cq kq cs ks).

Definition float_of_steps (negative : bool) (n kq cs ks : Z) : float :=
  let '(c, k) := round28 (snd (aligned 0 kq cs ks) * n) (Z.min kq ks) in
  if c =? 0 then zero else float_of_decimal (DFinite negative c k).

(** Modelled from the spec: the Quantizer of its section 4.2 is
    [binance.helpers.round_step_size], a function of the connector's package
    that is not part of the repository.  The package defines it as
    [quantity = Decimal(str(quantity))] followed by
    [return float(quantity - quantity % Decimal(str(step_size)))]: the
    remainder takes the sign of the quantity, a step of zero and an infinite
    quantity raise [decimal.InvalidOperation], as does a quotient of more than
    28 digits, and a difference of zero is the positive zero. *)
Definition helpers_round_step_size (quantity step_size : float) : outcome float :=
  match decimal_of_float quantity, decimal_of_float step_size with
  | DNaN, _ => Return nan
  | _, DNaN => Return nan
  | DInfinity _, _ => Raise InvalidOperation
  | DFinite _ _ _, DInfinity _ => Return zero
  | DFinite negative cq kq, DFinite _ cs ks =>
      if cs =? 0 then Raise InvalidOperation
      else
        let '(a, b) := aligned cq kq cs ks in
        if 10 ^ 28 <=? a / b then Raise InvalidOperation
        else
          let '(c, k) := round28 (a - a mod b) (Z.min kq ks) in
          Return (if c =? 0 then zero else float_of_decimal (DFinite negative c k))
  end.

(** Modelled from the spec: the transport of the connector, which is not part
    of the repository.  Section 6 has fields left unset omitted from the wire
    payload; the connector does so by dropping, before it encodes the
    request, every keyword argument whose value is [None]. *)
Definition wire_payload (kwargs : dict) : dict :=
  List.filter (fun item => match snd item with PyNone => false | _ => true end) kwargs.

(** What the wire payload holds for an argument: nothing for [None]. *)
Definition sent (v : pyval) : option pyval :=
  match v with
  | PyNone => None
  | _ => Some v
  end.

Local Close Scope Z_scope.

(** The trigger the specification's Quantizer would give, which "rounds
    toward the nearest valid multiple": among two multiples of the tick, the
    one nearer to the value. *)
Definition nearer (value candidate other : float) : bool :=
  abs (candidate - value) <? abs (other - value).

(** A position for the symbol with a nonzero amount of the requested sign,
    whatever its positionSide. *)
Definition exposure (pair : string) (long : bool) (pos : position) : Prop :=
  pos_symbol pos = pair
  /\ (if long then 0 <? positionAmt pos else positionAmt pos <? 0) = true.

(** Every call of the list, issued in turn after [h], returns. *)
Definition cancels_return (client : exchange) (h : list call) (symbols : list string) :
    Prop :=
  forall (done rest : list string) (sym : string),
    symbols = done ++ sym :: rest ->
    exists v : pyval,
      on_cancel_open_orders client
        (h ++ map (fun sym => cancel_open_orders_call sym 6000) done) sym 6000
      = Return v.

(** An exchange quoting 112. *)
Definition quoting_112 : exchange :=
  fixed_exchange (Return []) (Return []) (Return 112) (Return []) (Return [])
    (fun _ => Return ack) (fun _ => Return ack).

(** A listing with symbols shorter than four characters. *)
Definition short_symbols : exchange :=
  fixed_exchange (Return [])
    (Return [SymbolInfo "ETHBTC" 3 2 []; SymbolInfo "BTC" 3 2 []; SymbolInfo "ETH" 3 2 []])
    (Return 100) (Return []) (Return []) (fun _ => Return ack) (fun _ => Return ack).
(** ** Floats *)

Lemma zero_SF : Prim2SF 0 = S754_zero false.
Proof. reflexivity. Qed.

Lemma abs_of_pos (x : float) : (0 <? x) = true -> abs x = x.
Proof.
  rewrite ltb_spec, zero_SF. intros H. apply Prim2SF_inj. rewrite abs_spec.
  destruct (Prim2SF x) as [s|s| |s m e]; try destruct s; try discriminate H; reflexivity.
Qed.

Lemma abs_of_neg (x : float) : (x <? 0) = true -> abs x = - x.
Proof.
  rewrite ltb_spec, zero_SF. intros H. apply Prim2SF_inj. rewrite abs_spec, opp_spec.
  destruct (Prim2SF x) as [s|s| |s m e]; try destruct s; try discriminate H; reflexivity.
Qed.

Lemma abs_gt0_sign (x : float) :
  (0 <? abs x) = true -> (0 <? x) = true \/ (x <? 0) = true.
Proof.
  rewrite !ltb_spec, abs_spec, zero_SF.
  destruct (Prim2SF x) as [s|s| |s m e]; try destruct s; cbn; auto.
Qed.

Lemma pos_abs_gt0 (x : float) : (0 <? x) = true -> (0 <? abs x) = true.
Proof. intros H. rewrite (abs_of_pos x H). exact H. Qed.

Lemma neg_abs_gt0 (x : float) : (x <? 0) = true -> (0 <? abs x) = true.
Proof.
  rewrite !ltb_spec, abs_spec, zero_SF.
  destruct (Prim2SF x) as [s|s| |s m e]; try destruct s; cbn; auto.
Qed.

Lemma pos_not_neg (x : float) : (0 <? x) = true -> (x <? 0) = false.
Proof.
  rewrite !ltb_spec, zero_SF.
  destruct (Prim2SF x) as [s|s| |s m e]; try destruct s; cbn; auto; discriminate.
Qed.

Lemma pos_nonzero (x : float) : (0 <? x) = true -> (x =? 0) = false.
Proof.
  rewrite FloatAxioms.ltb_spec, FloatAxioms.eqb_spec, zero_SF.
  destruct (Prim2SF x) as [s|s| |s m e]; try destruct s; cbn; auto; discriminate.
Qed.

Lemma neg_nonzero (x : float) : (x <? 0) = true -> (x =? 0) = false.
Proof.
  rewrite FloatAxioms.ltb_spec, FloatAxioms.eqb_spec, zero_SF.
  destruct (Prim2SF x) as [s|s| |s m e]; try destruct s; cbn; auto; discriminate.
Qed.


(** ** Running the methods *)

Lemma issued_of {A : Type} (m : M A) (s : state) (l : list call) :
  history (final m s) = history s ++ l -> issued m s = l.
Proof. unfold issued. intros ->. by rewrite drop_app_length. Qed.

Lemma bind_return {A B : Type} (m : M A) (k : A -> M B) (s : state) (a : A) (s' : state) :
  m s = (Return a, s') -> bind m k s = k a s'.
Proof. unfold bind. by intros ->. Qed.

Section Runs.

Variable client : exchange.
Variable round_step_size : float -> float -> outcome float.

Lemma make_order_run (pair side : string) (quantity : pyval) (market : string)
    (positionSide : string) (timeInForce price stopPrice : pyval)
    (workingType : string) (priceProtect closePosition : bool) (s : state) :
  make_order client pair side quantity market positionSide timeInForce price stopPrice
    workingType priceProtect closePosition s
  = (caught (on_new_order client (history s)
               (order_kwargs pair side quantity market positionSide timeInForce price
                  stopPrice workingType priceProtect closePosition)),
     State (history s
            ++ [new_order_call
                  (order_kwargs pair side quantity market positionSide timeInForce price
                     stopPrice workingType priceProtect closePosition)])
       (attrs s)).
Proof.
  unfold make_order, try_except, bind, client_new_order, issue, ret, order_kwargs. cbn.
  destruct (on_new_order client (history s) _); reflexivity.
Qed.

Lemma market_order_run (pair side : string) (precized_quantity : pyval) (s : state) :
  market_order client pair side precized_quantity s
  = (caught (on_new_order client (history s) (market_kwargs pair side precized_quantity)),
     State (history s ++ [new_order_call (market_kwargs pair side precized_quantity)])
       (attrs s)).
Proof.
  unfold market_order, try_except, bind, ret, market_kwargs, is_long.
  case_bool_decide; rewrite make_order_run;
    destruct (on_new_order client (history s) _); reflexivity.
Qed.

Lemma place_final (kind : protective) (pair side : string) (precized_quantity : pyval)
    (pct tick_size : float) (s : state) :
  final (place kind client round_step_size pair side precized_quantity pct tick_size) s
  = State (history s
           ++ place_calls client round_step_size kind pair side precized_quantity pct
                tick_size (history s))
      (attrs s).
Proof.
  unfold final, place_calls, open_for, protective_kwargs, spec_trigger, is_long.
  destruct kind; cbn [place protective_type];
    [unfold stop_loss_order | unfold take_profit_order];
    unfold try_except, bind, client_ticker_price, client_account, issue, lift, ret;
    cbn [history attrs fst snd];
    (destruct (on_ticker_price client (history s) pair) as [price|e]; [|reflexivity]);
    (destruct (on_account client (history s ++ [ticker_price_call pair])) as [positions|e];
       [|cbn; by rewrite <- app_assoc]);
    case_bool_decide;
    (destruct (round_step_size _ tick_size) as [trigger|e];
       [|cbn; by rewrite <- app_assoc]);
    destruct (existsb _ positions);
    rewrite ?market_order_run, ?make_order_run; cbn [history attrs fst snd];
    repeat match goal with
           | |- context [match caught ?o with _ => _ end] => destruct o; cbn [caught]
           | |- context [match ?o with Return _ => _ | Raise _ => _ end] => destruct o
           end;
    cbn [history attrs fst snd]; rewrite <- ?app_assoc; try reflexivity.
Qed.

(** The loop of [close_all_positions]: it never raises, and sends the closing
    order of each position in turn. *)
Lemma close_loop_run (positions : list position) (order : option pyval) (s : state) :
  exists order' : option pyval,
    for_fold (close_position client) order positions s
    = (Return order',
       State (history s ++ map new_order_call (flat_map closing_kwargs positions))
         (attrs s)).
Proof.
  revert order s. induction positions as [|pos positions IH]; intros order s.
  - exists order. cbn. rewrite app_nil_r. by destruct s.
  - cbn [for_fold flat_map]. unfold bind at 1. unfold close_position, closing_kwargs.
    destruct (0 <? abs (positionAmt pos)) eqn:Habs.
    + destruct (abs_gt0_sign _ Habs) as [Hpos|Hneg].
      * rewrite Hpos. unfold bind. rewrite market_order_run.
        destruct (on_new_order client (history s) _); cbn [caught ret];
          (edestruct IH as [o' ->]; exists o'; cbn [history attrs];
           by rewrite map_app, <- app_assoc).
      * destruct (0 <? positionAmt pos) eqn:Hpos;
          [by rewrite (pos_not_neg _ Hpos) in Hneg|].
        rewrite Hneg. unfold bind. rewrite market_order_run.
        destruct (on_new_order client (history s) _); cbn [caught ret];
          (edestruct IH as [o' ->]; exists o'; cbn [history attrs];
           by rewrite map_app, <- app_assoc).
    + destruct (0 <? positionAmt pos) eqn:Hpos;
        [by rewrite (pos_abs_gt0 _ Hpos) in Habs|].
      destruct (positionAmt pos <? 0) eqn:Hneg;
        [by rewrite (neg_abs_gt0 _ Hneg) in Habs|].
      unfold ret at 1. apply IH.
Qed.

Lemma close_all_positions_run (positions : list position) (s : state) :
  on_account client (history s) = Return positions ->
  close_all_positions client s
  = (Return (PyStr "close-done"),
     State (history s
            ++ account_call :: map new_order_call (flat_map closing_kwargs positions))
       (attrs s)).
Proof.
  intros Hacc. unfold close_all_positions, try_except, bind, client_account, issue.
  rewrite Hacc.
  destruct (close_loop_run positions None
              (State (history s ++ [account_call]) (attrs s))) as [o ->].
  cbn. by rewrite <- app_assoc.
Qed.

(** The loop of [cancel_all_orders]: it stops at the first call that raises. *)
Lemma cancel_loop_run (symbols : list string) (s : state) :
  for_each symbols
    (fun sym => bind (client_cancel_open_orders client sym 6000) (fun _ => ret tt)) s
  = (match snd (cancelled client (history s) symbols) with
     | None => Return tt
     | Some e => Raise e
     end,
     State (history s
            ++ map (fun sym => cancel_open_orders_call sym 6000)
                 (fst (cancelled client (history s) symbols)))
       (attrs s)).
Proof.
  unfold for_each. revert s. induction symbols as [|sym symbols IH]; intros s.
  - cbn. rewrite app_nil_r. by destruct s.
  - cbn [for_fold cancelled]. unfold bind at 1 2, client_cancel_open_orders, issue.
    destruct (on_cancel_open_orders client (history s) sym 6000) as [v|e].
    + unfold ret at 1. rewrite IH. cbn [history attrs].
      destruct (cancelled client _ symbols) as [done failure].
      cbn. by rewrite <- app_assoc.
    + reflexivity.
Qed.

Lemma cancel_all_orders_run (open_orders : list open_order) (s : state) :
  on_get_orders client (history s) = Return open_orders ->
  cancel_all_orders client s
  = (Return match snd (cancelled client (history s ++ [get_orders_call])
                         (map order_symbol open_orders)) with
            | None => PyStr "cancel-done"
            | Some e => error_dict e
            end,
     State (history s
            ++ get_orders_call
               :: map (fun sym => cancel_open_orders_call sym 6000)
                    (fst (cancelled client (history s ++ [get_orders_call])
                            (map order_symbol open_orders))))
       (attrs s)).
Proof.
  intros Hget. unfold cancel_all_orders, try_except. unfold bind at 1.
  unfold client_get_orders, issue. rewrite Hget. unfold bind at 1.
  rewrite cancel_loop_run. cbn [history attrs].
  destruct (cancelled client _ _) as [done [e|]]; cbn; by rewrite <- app_assoc.
Qed.

Lemma cancels_return_nil (h : list call) : cancels_return client h [].
Proof. intros done rest sym Heq. by destruct done. Qed.

Lemma cancels_return_cons (h : list call) (sym : string) (symbols : list string)
    (v : pyval) :
  on_cancel_open_orders client h sym 6000 = Return v ->
  cancels_return client (h ++ [cancel_open_orders_call sym 6000]) symbols ->
  cancels_return client h (sym :: symbols).
Proof.
  intros Hcall Hrest done rest sym' Heq. destruct done as [|s0 done].
  - injection Heq as <- _. exists v. cbn. by rewrite app_nil_r.
  - injection Heq as <- Heq. destruct (Hrest done rest sym' Heq) as [v' Hv'].
    exists v'. cbn. by rewrite <- app_assoc in Hv'.
Qed.

(** Either every cancellation returns and [cancelled] gets to all the
    symbols, or it ends with the first cancellation that raises. *)
Lemma cancelled_outcome (h : list call) (symbols : list string) :
  (cancels_return client h symbols /\ cancelled client h symbols = (symbols, None))
  \/ (exists (done rest : list string) (sym : string) (e : exn),
         symbols = done ++ sym :: rest
         /\ cancels_return client h done
         /\ on_cancel_open_orders client
              (h ++ map (fun sym => cancel_open_orders_call sym 6000) done) sym 6000
            = Raise e
         /\ cancelled client h symbols = (done ++ [sym], Some e)).
Proof.
  revert h. induction symbols as [|sym symbols IH]; intros h.
  - left. split; [apply cancels_return_nil | reflexivity].
  - cbn [cancelled].
    destruct (on_cancel_open_orders client h sym 6000) as [v|e] eqn:Hcall.
    + destruct (IH (h ++ [cancel_open_orders_call sym 6000]))
        as [[Hall ->]|(done & rest & sym' & e & -> & Hdone & Hraise & ->)].
      * left. split; [by eapply cancels_return_cons | reflexivity].
      * right. exists (sym :: done), rest, sym', e.
        split; [reflexivity|]. split; [by eapply cancels_return_cons|].
        split; [|reflexivity]. cbn. by rewrite <- app_assoc in Hraise.
    + right. exists [], symbols, sym, e.
      split; [reflexivity|]. split; [apply cancels_return_nil|].
      split; [|reflexivity]. cbn. by rewrite app_nil_r.
Qed.

Lemma cancelled_no_failure (h : list call) (symbols : list string) :
  (forall h' sym, exists v, on_cancel_open_orders client h' sym 6000 = Return v) ->
  cancelled client h symbols = (symbols, None).
Proof.
  intros Hok. revert h. induction symbols as [|sym symbols IH]; intros h; cbn.
  - done.
  - destruct (Hok h sym) as [v ->]. by rewrite IH.
Qed.

(** The loops of [get_precisions] never raise once the dictionaries exist. *)
Lemma load_filters_run (sym : string) (fs : list symbol_filter) (c : caches) (h : list call) :
  for_each fs (load_filter sym) (State h (Some c))
  = (Return tt, State h (Some (foldl (loaded_filter sym) c fs))).
Proof.
  unfold for_each. revert c. induction fs as [|f fs IH]; intros c; [reflexivity|].
  cbn [for_fold foldl]. unfold bind at 1.
  replace (load_filter sym f (State h (Some c)))
    with (Return tt, State h (Some (loaded_filter sym c f))); [apply IH|].
  unfold load_filter, loaded_filter, bind, update_attrs, ret.
  repeat case_bool_decide; reflexivity.
Qed.

Lemma load_items_run (info : list symbol_info) (c : caches) (h : list call) :
  for_each info load_item (State h (Some c))
  = (Return tt, State h (Some (foldl loaded_item c info))).
Proof.
  unfold for_each. revert c. induction info as [|item info IH]; intros c; [reflexivity|].
  cbn [for_fold foldl]. unfold bind at 1.
  replace (load_item item (State h (Some c)))
    with (Return tt, State h (Some (loaded_item c item))); [apply IH|].
  unfold load_item, loaded_item, bind, update_attrs. cbn [attrs history].
  by rewrite load_filters_run.
Qed.

Lemma get_precisions_loaded (info : list symbol_info) (s : state) :
  on_exchange_info client (history s) = Return info ->
  get_precisions client s
  = (Return PyNone, State (history s ++ [exchange_info_call]) (Some (loaded info))).
Proof.
  intros Hinfo. unfold get_precisions, try_except, bind, client_exchange_info, issue.
  rewrite Hinfo. unfold set_attrs. cbn [history attrs].
  by rewrite load_items_run.
Qed.

Lemma get_precisions_failed (e : exn) (s : state) :
  on_exchange_info client (history s) = Raise e ->
  get_precisions client s
  = (Return PyNone, State (history s ++ [exchange_info_call]) (attrs s)).
Proof.
  intros Hinfo. unfold get_precisions, try_except, bind, client_exchange_info, issue.
  by rewrite Hinfo.
Qed.

End Runs.

Lemma loaded_filter_keys (sym : string) (c : caches) (f : symbol_filter)
    (symbols : list string) :
  sym ∈ symbols -> keys_within c symbols -> keys_within (loaded_filter sym c f) symbols.
Proof.
  intros Hsym Hc k. unfold loaded_filter.
  repeat case_bool_decide; cbn; intros Hk;
    (destruct (decide (sym = k)) as [<-|Hne]; [done|]);
    rewrite ?lookup_insert_ne in Hk by done; by apply Hc.
Qed.

Lemma loaded_filters_keys (sym : string) (fs : list symbol_filter) (c : caches)
    (symbols : list string) :
  sym ∈ symbols -> keys_within c symbols ->
  keys_within (foldl (loaded_filter sym) c fs) symbols.
Proof.
  intros Hsym. revert c. induction fs as [|f fs IH]; intros c Hc; [done|].
  cbn. by apply IH, loaded_filter_keys.
Qed.

Lemma loaded_item_keys (c : caches) (item : symbol_info) (symbols : list string) :
  symbol item ∈ symbols -> keys_within c symbols ->
  keys_within (loaded_item c item) symbols.
Proof.
  intros Hsym Hc. unfold loaded_item. apply loaded_filters_keys; [done|].
  intros k. cbn. intros H.
  destruct (decide (symbol item = k)) as [<-|Hne]; [done|].
  rewrite ?lookup_insert_ne in H by done. by apply Hc.
Qed.

Lemma loaded_items_keys (info : list symbol_info) (c : caches) (symbols : list string) :
  map symbol info ⊆ symbols -> keys_within c symbols ->
  keys_within (foldl loaded_item c info) symbols.
Proof.
  revert c. induction info as [|item info IH]; intros c Hsub Hc; [done|].
  cbn. apply IH.
  - intros k Hk. apply Hsub. cbn. by right.
  - apply loaded_item_keys; [|done]. apply Hsub. cbn. by left.
Qed.

Lemma loaded_keys (info : list symbol_info) : keys_within (loaded info) (map symbol info).
Proof.
  apply loaded_items_keys; [done|].
  intros sym. cbn. rewrite !lookup_empty.
  intros [[? ?]|[[? ?]|[[? ?]|[[? ?]|[? ?]]]]]; done.
Qed.

(** ** The rounding helper *)

Lemma round_half_even_nonneg (num den : Z) :
  (0 <= num)%Z -> (0 < den)%Z -> (0 <= round_half_even num den)%Z.
Proof.
  intros Hnum Hden. unfold round_half_even.
  pose proof (Z.div_pos num den Hnum Hden).
  destruct (2 * (num mod den) ?= den)%Z; [destruct (Z.even _)| |]; lia.
Qed.

Lemma nearest_coefficient_nonneg (m : positive) (e k : Z) :
  (0 <= nearest_coefficient (Zpos m) e k)%Z.
Proof.
  unfold nearest_coefficient. apply round_half_even_nonneg.
  - apply Z.mul_nonneg_nonneg; [apply Z.mul_nonneg_nonneg; [lia|]|];
      apply Z.pow_nonneg; lia.
  - apply Z.mul_pos_pos; apply Z.pow_pos_nonneg; lia.
Qed.

Lemma shortest_nonneg (x : float) (negative : bool) (m : positive) (e k : Z)
    (fuel : nat) :
  (0 <= fst (shortest x negative (Zpos m) e k fuel))%Z.
Proof.
  revert k. induction fuel as [|fuel IH]; intros k; cbn [shortest].
  - apply nearest_coefficient_nonneg.
  - destruct (PrimFloat.eqb _ x); [apply nearest_coefficient_nonneg | apply IH].
Qed.

Lemma decimal_of_float_nonneg (x : float) (negative : bool) (c k : Z) :
  decimal_of_float x = DFinite negative c k -> (0 <= c)%Z.
Proof.
  unfold decimal_of_float. destruct (Prim2SF x) as [s|s| |s m e]; try discriminate.
  - intros [= _ <- _]. lia.
  - pose proof (shortest_nonneg x s m e
                  ((Z.log2 (Zpos m) + e + 1) * 30103 / 100000 + 2)%Z 25) as Hc.
    destruct (shortest _ _ _ _ _ _) as [c' k']. intros [= _ <- _]. exact Hc.
Qed.

(** For a finite quantity and a finite step other than zero, the quotient
    having at most 28 digits, the helper returns the float of the whole steps
    in the quantity: it truncates the quantity toward zero to a multiple of
    the step. *)
Lemma helpers_round_step_size_truncates (quantity step_size : float)
    (negative negative' : bool) (cq kq cs ks : Z) :
  decimal_of_float quantity = DFinite negative cq kq ->
  decimal_of_float step_size = DFinite negative' cs ks ->
  cs <> 0%Z ->
  (whole_steps cq kq cs ks < 10 ^ 28)%Z ->
  helpers_round_step_size quantity step_size
  = Return (float_of_steps negative (whole_steps cq kq cs ks) kq cs ks)
  /\ (snd (aligned cq kq cs ks) * whole_steps cq kq cs ks <= fst (aligned cq kq cs ks)
      < snd (aligned cq kq cs ks) * (whole_steps cq kq cs ks + 1))%Z
  /\ (0 <= whole_steps cq kq cs ks)%Z.
Proof.
  intros Hq Hs Hcs Hsmall.
  pose proof (decimal_of_float_nonneg _ _ _ _ Hq) as Hcq.
  pose proof (decimal_of_float_nonneg _ _ _ _ Hs) as Hcs'.
  unfold helpers_round_step_size, float_of_steps, whole_steps in *.
  rewrite Hq, Hs. rewrite (proj2 (Z.eqb_neq cs 0) Hcs).
  unfold aligned in *. cbn [fst snd] in *.
  set (a := (cq * 10 ^ (kq - Z.min kq ks))%Z) in *.
  set (b := (cs * 10 ^ (ks - Z.min kq ks))%Z) in *.
  assert (Hb : (0 < b)%Z).
  { apply Z.mul_pos_pos; [lia|]. apply Z.pow_pos_nonneg; lia. }
  assert (Ha : (0 <= a)%Z).
  { apply Z.mul_nonneg_nonneg; [lia|]. apply Z.pow_nonneg. lia. }
  rewrite (proj2 (Z.leb_gt (10 ^ 28) (a / b)) Hsmall).
  pose proof (Z.div_mod a b ltac:(lia)) as Hdiv.
  pose proof (Z.mod_pos_bound a b Hb) as Hmod.
  replace (a - a mod b)%Z with (b * (a / b))%Z by lia.
  split; [by destruct (round28 _ _)|]. split; [lia|]. apply Z.div_pos; lia.
Qed.

(** ** Protective orders *)

(** The loop test of the code holds of exactly the positions the
    specification calls matching. *)
Lemma open_for_matching (pair side : string) (pos : position) :
  open_for pair side pos = true <-> matching_position pair (is_long side) pos.
Proof.
  unfold open_for, matching_position, open_long, open_short.
  destruct (is_long side);
    rewrite !andb_true_iff, !bool_decide_eq_true; split.
  - intros [[Hsym _] [Hamt Hside]]. eauto using pos_nonzero.
  - intros (Hsym & _ & Hamt & Hside). eauto using pos_abs_gt0.
  - intros [[Hsym _] [Hamt Hside]]. eauto using neg_nonzero.
  - intros (Hsym & _ & Hamt & Hside). eauto using neg_abs_gt0.
Qed.

Lemma existsb_open_for (pair side : string) (positions : list position) :
  existsb (open_for pair side) positions = true
  <-> Exists (matching_position pair (is_long side)) positions.
Proof.
  rewrite existsb_exists, Exists_exists. setoid_rewrite <- list_elem_of_In.
  split; intros (pos & Hin & Hpos); exists pos; split; try done;
    by apply open_for_matching.
Qed.

Lemma place_orders (client : exchange) (round_step_size : float -> float -> outcome float)
    (kind : protective) (pair side : string) (precized_quantity : pyval)
    (pct tick_size : float) (s : state) (price : float) (positions : list position)
    (trigger : float) :
  on_ticker_price client (history s) pair = Return price ->
  on_account client (history s ++ [ticker_price_call pair]) = Return positions ->
  round_step_size (spec_trigger kind (is_long side) price pct) tick_size = Return trigger ->
  orders (issued (place kind client round_step_size pair side precized_quantity pct
                    tick_size) s)
  = if existsb (open_for pair side) positions
    then [protective_kwargs kind pair side trigger]
    else [market_kwargs pair side precized_quantity;
          protective_kwargs kind pair side trigger].
Proof.
  intros Hprice Hacc Hround.
  erewrite issued_of by (rewrite place_final; reflexivity).
  unfold place_calls. rewrite Hprice, Hacc, Hround.
  by destruct (existsb _ positions).
Qed.

Lemma place_orders_any (client : exchange)
    (round_step_size : float -> float -> outcome float) (kind : protective)
    (pair side : string) (precized_quantity : pyval) (pct tick_size : float) (s : state)
    (kw : dict) :
  kw ∈ orders (issued (place kind client round_step_size pair side precized_quantity pct
                         tick_size) s) ->
  kw = market_kwargs pair side precized_quantity
  \/ exists trigger : float, kw = protective_kwargs kind pair side trigger.
Proof.
  erewrite issued_of by (rewrite place_final; reflexivity).
  unfold place_calls.
  destruct (on_ticker_price client (history s) pair); cbn; [|by intros ?%elem_of_nil].
  destruct (on_account client _); cbn; [|by intros ?%elem_of_nil].
  destruct (round_step_size _ tick_size) as [trigger|]; cbn; [|by intros ?%elem_of_nil].
  destruct (existsb _ _); cbn; rewrite ?elem_of_cons, elem_of_nil;
    [intros [->|[]] | intros [->|[->|[]]]]; eauto.
Qed.

Lemma matching_position_exposure (pair : string) (long : bool) (pos : position) :
  matching_position pair long pos -> exposure pair long pos.
Proof. intros (Hsym & _ & Hamt & _). by split. Qed.

(** C1, as stated, fails.  With a BTCUSDT position of +0.5 reported as LONG
    and a tick size of 0, the rounding helper raises and [stop_loss_order]
    places no order at all.  And on an account in one-way mode, whose
    BTCUSDT position of +0.5 is reported with positionSide "BOTH" (the
    positionSide the method itself sends), the entry order is placed beside
    the open position. *)
Lemma C1_counterexample :
  on_account healthy [ticker_price_call "BTCUSDT"]
  = Return [Position "BTCUSDT" 0.5 "LONG"; Position "ETHUSDT" (-2) "SHORT";
            Position "XRPUSDT" 0 "BOTH"]
  /\ matching_position "BTCUSDT" true (Position "BTCUSDT" 0.5 "LONG")
  /\ orders (issued (stop_loss_order healthy helpers_round_step_size "BTCUSDT" "long"
                       (PyFloat 0.01) 2 0) initial_state) = []
  /\ on_account one_way [ticker_price_call "BTCUSDT"]
     = Return [Position "BTCUSDT" 0.5 "BOTH"]
  /\ orders (issued (stop_loss_order one_way helpers_round_step_size "BTCUSDT" "long"
                       (PyFloat 0.01) 2 0.1) initial_state)
     = [market_kwargs "BTCUSDT" "long" (PyFloat 0.01);
        protective_kwargs StopLoss "BTCUSDT" "long" 98].
Proof.
  split; [reflexivity|]. split; [repeat split; reflexivity|].
  split; [vm_compute; reflexivity|]. split; [reflexivity|].
  vm_compute. reflexivity.
Qed.

(** C1, amended: once the price and the position list are fetched and the
    rounding helper has returned the trigger, [stop_loss_order] and
    [take_profit_order] place exactly one order, the protective one, when
    the fetched positions contain a position for the same symbol with a
    nonzero amount of the requested sign and the positionSide "LONG" (for the
    side "long") or "SHORT" (for any other side); and when they contain no
    position for the same symbol with a nonzero amount of the requested sign,
    they place exactly two orders, first a market order for
    [precized_quantity], then the protective order. *)
Theorem C1_one_or_two_orders (client : exchange)
    (round_step_size : float -> float -> outcome float) (kind : protective)
    (pair side : string) (precized_quantity : pyval) (pct tick_size : float) (s : state)
    (price : float) (positions : list position) (trigger : float) :
  on_ticker_price client (history s) pair = Return price ->
  on_account client (history s ++ [ticker_price_call pair]) = Return positions ->
  round_step_size (spec_trigger kind (is_long side) price pct) tick_size = Return trigger ->
  (Exists (matching_position pair (is_long side)) positions ->
   exists prot : dict,
     orders (issued (place kind client round_step_size pair side precized_quantity pct
                       tick_size) s) = [prot]
     /\ dict_get prot "symbol" = Some (PyStr pair)
     /\ dict_get prot "type" = Some (PyStr (protective_type kind)))
  /\ (~ Exists (exposure pair (is_long side)) positions ->
      exists entry prot : dict,
        orders (issued (place kind client round_step_size pair side precized_quantity pct
                          tick_size) s) = [entry; prot]
        /\ dict_get entry "symbol" = Some (PyStr pair)
        /\ dict_get entry "type" = Some (PyStr "MARKET")
        /\ dict_get entry "side" = Some (PyStr (if is_long side then "BUY" else "SELL"))
        /\ dict_get entry "quantity" = Some precized_quantity
        /\ dict_get prot "symbol" = Some (PyStr pair)
        /\ dict_get prot "type" = Some (PyStr (protective_type kind))).
Proof.
  intros Hprice Hacc Hround.
  rewrite (place_orders _ _ _ _ _ _ _ _ _ _ _ _ Hprice Hacc Hround).
  destruct (existsb (open_for pair side) positions) eqn:Hex; split; intros Hpos.
  - by eexists.
  - exfalso. apply Hpos. apply existsb_open_for in Hex.
    eapply Exists_impl; [exact Hex|]. intros pos. apply matching_position_exposure.
  - apply existsb_open_for in Hpos. by rewrite Hex in Hpos.
  - by do 2 eexists.
Qed.

Lemma C1_one_or_two_orders_witness :
  (exists prot : dict,
     orders (issued (stop_loss_order
                       healthy helpers_round_step_size "BTCUSDT" "long" (PyFloat 0.01) 2
                       0.1)
               initial_state) = [prot]
     /\ dict_get prot "type" = Some (PyStr "STOP_MARKET"))
  /\ (exists entry prot : dict,
        orders (issued (take_profit_order
                          healthy helpers_round_step_size "XRPUSDT" "short" (PyFloat 30)
                          5 0.0001)
                  initial_state) = [entry; prot]
        /\ dict_get entry "type" = Some (PyStr "MARKET")
        /\ dict_get entry "quantity" = Some (PyFloat 30)
        /\ dict_get prot "type" = Some (PyStr "TAKE_PROFIT_MARKET")).
Proof.
  split.
  - destruct (proj1 (C1_one_or_two_orders healthy helpers_round_step_size StopLoss
                       "BTCUSDT" "long" (PyFloat 0.01) 2 0.1 initial_state 100
                       [Position "BTCUSDT" 0.5 "LONG"; Position "ETHUSDT" (-2) "SHORT";
                        Position "XRPUSDT" 0 "BOTH"]
                       98 eq_refl eq_refl ltac:(vm_compute; reflexivity)))
      as (prot & Hplaced & _ & Htype).
    + apply Exists_cons_hd. repeat split; reflexivity.
    + exists prot. split; [exact Hplaced | exact Htype].
  - destruct (proj2 (C1_one_or_two_orders healthy helpers_round_step_size TakeProfit
                       "XRPUSDT" "short" (PyFloat 30) 5 0.0001 initial_state 100
                       [Position "BTCUSDT" 0.5 "LONG"; Position "ETHUSDT" (-2) "SHORT";
                        Position "XRPUSDT" 0 "BOTH"]
                       95 eq_refl eq_refl ltac:(vm_compute; reflexivity)))
      as (entry & prot & Hplaced & _ & Htype & _ & Hqty & _ & Hprot).
    + intros Hex. apply Exists_exists in Hex as (pos & Hin & Hsym & Hamt).
      apply list_elem_of_In in Hin.
      destruct Hin as [<-|[<-|[<-|[]]]]; cbn in Hsym, Hamt; discriminate.
    + exists entry, prot. repeat split; assumption.
Defined.

Lemma protective_kwargs_protective (kind : protective) (pair side : string)
    (trigger : float) :
  is_protective (protective_kwargs kind pair side trigger).
Proof. destruct kind; [left | right]; reflexivity. Qed.

Lemma market_kwargs_not_protective (pair side : string) (precized_quantity : pyval) :
  ~ is_protective (market_kwargs pair side precized_quantity).
Proof. intros [H|H]; discriminate H. Qed.

Lemma place_protective_last (client : exchange)
    (round_step_size : float -> float -> outcome float) (kind : protective)
    (pair side : string) (precized_quantity : pyval) (pct tick_size : float) (s : state)
    (price : float) (positions : list position) (trigger : float) :
  on_ticker_price client (history s) pair = Return price ->
  on_account client (history s ++ [ticker_price_call pair]) = Return positions ->
  round_step_size (spec_trigger kind (is_long side) price pct) tick_size = Return trigger ->
  exists (before : list dict) (prot : dict),
    orders (issued (place kind client round_step_size pair side precized_quantity pct
                      tick_size) s) = before ++ [prot]
    /\ Forall (fun kw => ~ is_protective kw) before
    /\ is_protective prot
    /\ dict_get prot "stopPrice" = Some (PyFloat trigger).
Proof.
  intros Hprice Hacc Hround.
  rewrite (place_orders _ _ _ _ _ _ _ _ _ _ _ _ Hprice Hacc Hround).
  destruct (existsb (open_for pair side) positions).
  - exists [], (protective_kwargs kind pair side trigger).
    split; [reflexivity|]. split; [constructor|].
    split; [apply protective_kwargs_protective | reflexivity].
  - exists [market_kwargs pair side precized_quantity],
      (protective_kwargs kind pair side trigger).
    split; [reflexivity|].
    split; [repeat constructor; apply market_kwargs_not_protective|].
    split; [apply protective_kwargs_protective | reflexivity].
Qed.

(** C2, as stated, fails, "rounded" being the rounding to the nearest
    multiple of the specification's Quantizer: a long stop-loss at price 112,
    pct 2 and tick size 0.01 computes 112 * (1 - 2/100) = 109.75999999999999
    and is sent with the trigger price 109.75, although 109.76, which the
    helper leaves in place as a multiple of the tick size, is nearer. *)
Lemma C2_counterexample :
  spec_trigger StopLoss true 112 2 = 109.75999999999999
  /\ orders (issued (stop_loss_order quoting_112 helpers_round_step_size "BTCUSDT" "long"
                       (PyFloat 1) 2 0.01) initial_state)
     = [market_kwargs "BTCUSDT" "long" (PyFloat 1);
        protective_kwargs StopLoss "BTCUSDT" "long" 109.75]
  /\ helpers_round_step_size 109.76 0.01 = Return 109.76
  /\ nearer (spec_trigger StopLoss true 112 2) 109.76 109.75 = true.
Proof. repeat split; vm_compute; reflexivity. Qed.

(** C2, amended: the trigger price of the protective order is
    price * (1 - pct/100) for a long stop-loss and a short take-profit, and
    price * (1 + pct/100) for a long take-profit and a short stop-loss,
    truncated toward zero to a multiple of the tick size: written as
    decimals, the value holds a whole number of ticks and a remainder smaller
    than a tick, and the trigger is the float of those whole ticks.  A long
    stop-loss at price 100, pct 2 and tick size 0.1 has the trigger price
    98.0. *)
Theorem C2_trigger_price :
  (forall (client : exchange) (kind : protective) (pair side : string)
          (precized_quantity : pyval) (pct tick_size : float) (s : state) (price : float)
          (positions : list position) (negative negative' : bool) (cq kq cs ks : Z),
      on_ticker_price client (history s) pair = Return price ->
      on_account client (history s ++ [ticker_price_call pair]) = Return positions ->
      decimal_of_float (spec_trigger kind (is_long side) price pct)
      = DFinite negative cq kq ->
      decimal_of_float tick_size = DFinite negative' cs ks ->
      cs <> 0%Z ->
      (whole_steps cq kq cs ks < 10 ^ 28)%Z ->
      (exists (before : list dict) (prot : dict),
          orders (issued (place kind client helpers_round_step_size pair side
                            precized_quantity pct tick_size) s) = before ++ [prot]
          /\ Forall (fun kw => ~ is_protective kw) before
          /\ is_protective prot
          /\ dict_get prot "stopPrice"
             = Some (PyFloat (float_of_steps negative (whole_steps cq kq cs ks)
                                kq cs ks)))
      /\ (snd (aligned cq kq cs ks) * whole_steps cq kq cs ks
          <= fst (aligned cq kq cs ks)
          < snd (aligned cq kq cs ks) * (whole_steps cq kq cs ks + 1))%Z
      /\ (0 <= whole_steps cq kq cs ks)%Z)
  /\ (forall (client : exchange) (pair : string) (precized_quantity : pyval) (s : state)
             (positions : list position),
         on_ticker_price client (history s) pair = Return 100 ->
         on_account client (history s ++ [ticker_price_call pair]) = Return positions ->
         exists (before : list dict) (prot : dict),
           orders (issued (stop_loss_order client helpers_round_step_size pair "long"
                             precized_quantity 2 0.1) s) = before ++ [prot]
           /\ Forall (fun kw => ~ is_protective kw) before
           /\ is_protective prot
           /\ dict_get prot "stopPrice" = Some (PyFloat 98)).
Proof.
  split.
  - intros client kind pair side q pct tick_size s price positions negative negative'
      cq kq cs ks Hprice Hacc Hraw Htick Hcs Hsmall.
    destruct (helpers_round_step_size_truncates _ _ _ _ _ _ _ _ Hraw Htick Hcs Hsmall)
      as (Hround & Hbounds & Hnonneg).
    split; [|split; assumption].
    exact (place_protective_last client helpers_round_step_size kind pair side q pct
             tick_size s price positions _ Hprice Hacc Hround).
  - intros client pair q s positions Hprice Hacc.
    apply (place_protective_last client helpers_round_step_size StopLoss pair "long" q 2
             0.1 s 100 positions 98 Hprice Hacc).
    vm_compute. reflexivity.
Qed.

(** At price 112, pct 2 and tick size 0.01: 109.75999999999999 is
    10975999999999999 units of 1e-14, the tick is 1000000000000 of them, and
    the trigger is 10975 ticks. *)
Lemma C2_trigger_price_witness :
  (exists (before : list dict) (prot : dict),
     orders (issued (stop_loss_order quoting_112 helpers_round_step_size "BTCUSDT" "long"
                       (PyFloat 1) 2 0.01) initial_state) = before ++ [prot]
     /\ dict_get prot "stopPrice" = Some (PyFloat 109.75))
  /\ (exists (before : list dict) (prot : dict),
        orders (issued (stop_loss_order healthy helpers_round_step_size "BTCUSDT" "long"
                          (PyFloat 0.01) 2 0.1) initial_state) = before ++ [prot]
        /\ dict_get prot "stopPrice" = Some (PyFloat 98)).
Proof.
  split.
  - destruct (proj1 (proj1 C2_trigger_price quoting_112 StopLoss "BTCUSDT" "long"
                       (PyFloat 1) 2 0.01 initial_state 112 [] false false
                       10975999999999999%Z (-14)%Z 1%Z (-2)%Z
                       eq_refl eq_refl ltac:(vm_compute; reflexivity)
                       ltac:(vm_compute; reflexivity) ltac:(discriminate)
                       ltac:(vm_compute; reflexivity)))
      as (before & prot & Hplaced & _ & _ & Hstop).
    exists before, prot. split; [exact Hplaced|].
    rewrite Hstop. vm_compute. reflexivity.
  - destruct (proj2 C2_trigger_price healthy "BTCUSDT" (PyFloat 0.01) initial_state
                [Position "BTCUSDT" 0.5 "LONG"; Position "ETHUSDT" (-2) "SHORT";
                 Position "XRPUSDT" 0 "BOTH"]
                eq_refl eq_refl)
      as (before & prot & Hplaced & _ & _ & Hstop).
    exists before, prot. split; assumption.
Defined.

(** C6: every order of type STOP_MARKET or TAKE_PROFIT_MARKET that
    [stop_loss_order] or [take_profit_order] places is sent with
    closePosition true, priceProtect true, no quantity (None), workingType
    MARK_PRICE and timeInForce GTE_GTC. *)
Theorem C6_protective_order_fields (client : exchange)
    (round_step_size : float -> float -> outcome float) (kind : protective)
    (pair side : string) (precized_quantity : pyval) (pct tick_size : float) (s : state)
    (kw : dict) :
  kw ∈ orders (issued (place kind client round_step_size pair side precized_quantity pct
                         tick_size) s) ->
  is_protective kw ->
  dict_get kw "closePosition" = Some (PyBool true)
  /\ dict_get kw "priceProtect" = Some (PyBool true)
  /\ dict_get kw "quantity" = Some PyNone
  /\ dict_get kw "workingType" = Some (PyStr "MARK_PRICE")
  /\ dict_get kw "timeInForce" = Some (PyStr "GTE_GTC").
Proof.
  intros [->|[trigger ->]]%place_orders_any Hprot.
  - by apply market_kwargs_not_protective in Hprot.
  - repeat split; reflexivity.
Qed.

Lemma C6_protective_order_fields_witness :
  let kw := protective_kwargs StopLoss "ETHUSDT" "short" 102 in
  dict_get kw "closePosition" = Some (PyBool true)
  /\ dict_get kw "priceProtect" = Some (PyBool true)
  /\ dict_get kw "quantity" = Some PyNone
  /\ dict_get kw "workingType" = Some (PyStr "MARK_PRICE")
  /\ dict_get kw "timeInForce" = Some (PyStr "GTE_GTC").
Proof.
  apply (C6_protective_order_fields healthy nearest_step StopLoss "ETHUSDT" "short"
           (PyFloat 1) 2 0.01 initial_state).
  - vm_compute. apply list_elem_of_here.
  - left. reflexivity.
Defined.

(** ** Batch operations *)

Lemma orders_map_new_order (kws : list dict) : orders (map new_order_call kws) = kws.
Proof. induction kws as [|kw kws IH]; [reflexivity|]. cbn. by rewrite IH. Qed.

Lemma close_all_positions_orders (client : exchange) (positions : list position)
    (s : state) :
  on_account client (history s) = Return positions ->
  orders (issued (close_all_positions client) s) = flat_map closing_kwargs positions.
Proof.
  intros Hacc.
  erewrite issued_of
    by (unfold final; rewrite (close_all_positions_run _ _ _ Hacc); reflexivity).
  cbn. apply orders_map_new_order.
Qed.

(** C3, as stated, fails: with open orders on BTCUSDT and ETHUSDT and the
    BTCUSDT cancellation rejected, [cancel_all_orders] never gets to ETHUSDT;
    and [close_all_positions] returns the bare message "close-done" although
    the order closing BTCUSDT was rejected. *)
Lemma C3_counterexample :
  on_get_orders btc_failing [] = Return [OpenOrder "BTCUSDT"; OpenOrder "ETHUSDT"]
  /\ on_cancel_open_orders btc_failing [get_orders_call] "BTCUSDT" 6000 = Raise rejected
  /\ ~ "ETHUSDT" ∈ cancels (issued (cancel_all_orders btc_failing) initial_state)
  /\ on_new_order btc_failing [account_call]
       (market_kwargs "BTCUSDT" "short" (PyFloat 0.5)) = Raise rejected
  /\ result (close_all_positions btc_failing) initial_state = Return (PyStr "close-done")
  /\ result (close_all_positions healthy) initial_state = Return (PyStr "close-done").
Proof.
  repeat split; try reflexivity.
  vm_compute. intros H. apply list_elem_of_In in H. destruct H as [H|[]]. discriminate H.
Qed.

(** C3, amended: in [close_all_positions] a rejected order does not keep the
    remaining positions from being processed, and the result is the message
    "close-done" whatever the answers to the orders were; in
    [cancel_all_orders] the first cancellation that fails ends the loop: the
    calls issued are those for the symbols before it and for its own symbol,
    none for the symbols after it, and the result is the error dict of that
    failure; the result is "cancel-done", with a call issued for every open
    order, only when every cancellation returned. *)
Theorem C3_batch_outcomes :
  (forall (client : exchange) (s : state) (positions : list position),
      on_account client (history s) = Return positions ->
      orders (issued (close_all_positions client) s) = flat_map closing_kwargs positions
      /\ result (close_all_positions client) s = Return (PyStr "close-done"))
  /\ (forall (client : exchange) (s : state) (open_orders : list open_order),
         on_get_orders client (history s) = Return open_orders ->
         (cancels_return client (history s ++ [get_orders_call])
            (map order_symbol open_orders)
          /\ issued (cancel_all_orders client) s
             = get_orders_call
               :: map (fun sym => cancel_open_orders_call sym 6000)
                    (map order_symbol open_orders)
          /\ result (cancel_all_orders client) s = Return (PyStr "cancel-done"))
         \/ (exists (done rest : list string) (sym : string) (e : exn),
                map order_symbol open_orders = done ++ sym :: rest
                /\ cancels_return client (history s ++ [get_orders_call]) done
                /\ on_cancel_open_orders client
                     (history s ++ get_orders_call
                        :: map (fun sym => cancel_open_orders_call sym 6000) done)
                     sym 6000 = Raise e
                /\ issued (cancel_all_orders client) s
                   = get_orders_call
                     :: map (fun sym => cancel_open_orders_call sym 6000) (done ++ [sym])
                /\ result (cancel_all_orders client) s = Return (error_dict e))).
Proof.
  split.
  - intros client s positions Hacc. split.
    + by apply close_all_positions_orders.
    + unfold result. by rewrite (close_all_positions_run _ _ _ Hacc).
  - intros client s open_orders Hget.
    pose proof (cancel_all_orders_run _ _ _ Hget) as Hrun.
    destruct (cancelled_outcome client (history s ++ [get_orders_call])
                (map order_symbol open_orders))
      as [[Hall Hc]|(done & rest & sym & e & Hsplit & Hdone & Hraise & Hc)];
      rewrite Hc in Hrun; cbn [fst snd] in Hrun.
    + left. split; [exact Hall|].
      split; [apply issued_of; unfold final | unfold result]; by rewrite Hrun.
    + right. exists done, rest, sym, e.
      split; [exact Hsplit|]. split; [exact Hdone|].
      split; [by rewrite <- app_assoc in Hraise|].
      split; [apply issued_of; unfold final | unfold result]; by rewrite Hrun.
Qed.

(** With the cancellation for BTCUSDT rejected, the call for BTCUSDT is the
    last one issued. *)
Lemma C3_batch_outcomes_witness :
  (orders (issued (close_all_positions btc_failing) initial_state)
   = [market_kwargs "BTCUSDT" "short" (PyFloat 0.5);
      market_kwargs "ETHUSDT" "long" (PyFloat 2)]
   /\ result (close_all_positions btc_failing) initial_state = Return (PyStr "close-done"))
  /\ issued (cancel_all_orders btc_failing) initial_state
     = [get_orders_call; cancel_open_orders_call "BTCUSDT" 6000]
  /\ result (cancel_all_orders btc_failing) initial_state = Return (error_dict rejected).
Proof.
  split.
  - exact (proj1 C3_batch_outcomes btc_failing initial_state
             [Position "BTCUSDT" 0.5 "LONG"; Position "ETHUSDT" (-2) "SHORT"] eq_refl).
  - destruct (proj2 C3_batch_outcomes btc_failing initial_state
                [OpenOrder "BTCUSDT"; OpenOrder "ETHUSDT"] eq_refl)
      as [(Hall & _ & _)|(done & rest & sym & e & Hsplit & Hdone & Hraise & Hissued & Hres)].
    + destruct (Hall [] ["ETHUSDT"] "BTCUSDT" eq_refl) as [v Hv]. discriminate Hv.
    + destruct done as [|s0 done].
      * injection Hsplit as <- _. injection Hraise as <-.
        split; [exact Hissued | exact Hres].
      * injection Hsplit as <- _.
        destruct (Hdone [] done "BTCUSDT" eq_refl) as [v Hv]. discriminate Hv.
Defined.

(** C4, as stated, fails: with two open orders on BTCUSDT and one on ETHUSDT,
    all cancellations succeeding, BTCUSDT is cancelled twice. *)
Lemma C4_counterexample :
  on_get_orders healthy [] = Return [OpenOrder "BTCUSDT"; OpenOrder "BTCUSDT";
                                     OpenOrder "ETHUSDT"]
  /\ cancels (issued (cancel_all_orders healthy) initial_state)
     = ["BTCUSDT"; "BTCUSDT"; "ETHUSDT"]
  /\ ~ once_per_symbol [OpenOrder "BTCUSDT"; OpenOrder "BTCUSDT"; OpenOrder "ETHUSDT"]
         (cancels (issued (cancel_all_orders healthy) initial_state)).
Proof.
  split; [reflexivity|]. split; [reflexivity|].
  intros [Hnodup _]. vm_compute in Hnodup.
  apply NoDup_cons in Hnodup as [Hnotin _]. apply Hnotin, list_elem_of_here.
Qed.

(** C4, amended: when no cancellation fails, [cancel_all_orders] issues one
    cancel-open-orders call per open order, in the order of the list, so that
    a symbol is cancelled as many times as it has open orders. *)
Theorem C4_one_cancel_per_open_order (client : exchange) (s : state)
    (open_orders : list open_order) :
  on_get_orders client (history s) = Return open_orders ->
  (forall (h : list call) (sym : string),
      exists v : pyval, on_cancel_open_orders client h sym 6000 = Return v) ->
  issued (cancel_all_orders client) s
  = get_orders_call
    :: map (fun o => cancel_open_orders_call (order_symbol o) 6000) open_orders.
Proof.
  intros Hget Hok. apply issued_of. unfold final.
  rewrite (cancel_all_orders_run _ _ _ Hget), (cancelled_no_failure _ _ _ Hok).
  cbn. by rewrite map_map.
Qed.

Lemma C4_one_cancel_per_open_order_witness :
  issued (cancel_all_orders healthy) initial_state
  = [get_orders_call; cancel_open_orders_call "BTCUSDT" 6000;
     cancel_open_orders_call "BTCUSDT" 6000; cancel_open_orders_call "ETHUSDT" 6000].
Proof.
  apply (C4_one_cancel_per_open_order healthy initial_state
           [OpenOrder "BTCUSDT"; OpenOrder "BTCUSDT"; OpenOrder "ETHUSDT"]).
  - reflexivity.
  - intros h sym. exists ack. reflexivity.
Defined.

Lemma closing_kwargs_closes (positions : list position) :
  Forall2 closes (List.filter nonzero_amount positions)
    (flat_map closing_kwargs positions).
Proof.
  induction positions as [|pos positions IH]; [constructor|].
  cbn [List.filter flat_map]. unfold nonzero_amount at 1, closing_kwargs at 1.
  destruct (0 <? positionAmt pos) eqn:Hpos; [|destruct (positionAmt pos <? 0) eqn:Hneg];
    cbn [orb app]; [| |exact IH]; constructor; try exact IH; unfold closes.
  - rewrite Hpos, (abs_of_pos _ Hpos). repeat split; reflexivity.
  - rewrite Hpos, (abs_of_neg _ Hneg). repeat split; reflexivity.
Qed.

(** C5: [close_all_positions] issues, for every position of the fetched list
    with a positive or negative amount and in the order of the list, one
    market order on the position's symbol sized to the absolute amount, a SELL
    for a positive and a BUY for a negative amount, and no other order: none
    for a position whose amount is zero. *)
Theorem C5_close_all_positions_orders (client : exchange) (s : state)
    (positions : list position) :
  on_account client (history s) = Return positions ->
  Forall2 closes (List.filter nonzero_amount positions)
    (orders (issued (close_all_positions client) s))
  /\ (forall pos : position,
         (positionAmt pos =? 0) = true -> nonzero_amount pos = false).
Proof.
  intros Hacc. rewrite (close_all_positions_orders _ _ _ Hacc).
  split; [apply closing_kwargs_closes|].
  intros pos Hzero. unfold nonzero_amount.
  destruct (0 <? positionAmt pos) eqn:Hpos;
    [by rewrite (pos_nonzero _ Hpos) in Hzero|].
  destruct (positionAmt pos <? 0) eqn:Hneg;
    [by rewrite (neg_nonzero _ Hneg) in Hzero|].
  reflexivity.
Qed.

Lemma C5_close_all_positions_orders_witness :
  Forall2 closes [Position "BTCUSDT" 0.5 "LONG"; Position "ETHUSDT" (-2) "SHORT"]
    (orders (issued (close_all_positions healthy) initial_state)).
Proof.
  exact (proj1 (C5_close_all_positions_orders healthy initial_state
                  [Position "BTCUSDT" 0.5 "LONG"; Position "ETHUSDT" (-2) "SHORT";
                   Position "XRPUSDT" 0 "BOTH"] eq_refl)).
Defined.

(** ** The order payload *)

(** The keyword arguments that [make_order] hands to the connector still hold
    the unset fields, bound to [None]: it is the connector that leaves them
    out. *)
Lemma make_order_kwargs_hold_none :
  ~ Forall omits_unset
      (orders (issued (make_order healthy "BTCUSDT" "BUY" (PyFloat 0.5) "MARKET" "BOTH"
                         PyNone PyNone PyNone "CONTRACT_PRICE" false false)
                 initial_state)).
Proof.
  intros Hall. apply Forall_cons in Hall as [Hkw _].
  exact (Hkw "price" eq_refl).
Qed.

Lemma dict_get_absent (d : dict) (key : string) :
  key ∉ dict_keys d -> dict_get d key = None.
Proof.
  induction d as [|[k v] d IH]; [done|]. cbn. intros Hnotin.
  apply not_elem_of_cons in Hnotin as [Hne Hnotin].
  destruct (String.eqb_spec k key) as [->|_]; [done|]. by apply IH.
Qed.

(** The wire payload binds a key to what the keyword arguments bind it to,
    unless that is [None]: then the key is left out. *)
Lemma wire_payload_get (d : dict) (key : string) :
  NoDup (dict_keys d) -> dict_get (wire_payload d) key = dict_get d key ≫= sent.
Proof.
  induction d as [|[k v] d IH]; [done|]. cbn [dict_keys map fst].
  intros [Hnotin Hnodup]%NoDup_cons. specialize (IH Hnodup).
  assert (Hskip : dict_get (wire_payload ((k, v) :: d)) key
                  = if String.eqb k key then sent v else dict_get (wire_payload d) key).
  { unfold wire_payload. cbn [List.filter snd]. fold (wire_payload d).
    destruct v; cbn [dict_get sent]; destruct (String.eqb_spec k key) as [->|_];
      try done.
    by rewrite IH, dict_get_absent. }
  rewrite Hskip. cbn [dict_get]. by destruct (String.eqb k key).
Qed.

Lemma wire_payload_omits_unset (d : dict) :
  NoDup (dict_keys d) -> omits_unset (wire_payload d).
Proof.
  intros Hnodup key. rewrite (wire_payload_get _ _ Hnodup).
  destruct (dict_get d key) as [[]|]; discriminate.
Qed.

Lemma order_kwargs_keys (pair side : string) (quantity : pyval)
    (market positionSide : string) (timeInForce price stopPrice : pyval)
    (workingType : string) (priceProtect closePosition : bool) :
  NoDup (dict_keys (order_kwargs pair side quantity market positionSide timeInForce price
                      stopPrice workingType priceProtect closePosition)).
Proof. cbn. apply (bool_decide_unpack _). by vm_compute. Qed.

(** C7: of every order that [make_order] builds, the fields left unset (the
    arguments that are [None]: quantity for a close-position protective
    order, price, stopPrice and timeInForce for a market order) are absent
    from the request payload the connector sends to the exchange, which binds
    no key to a null value; the fields that are set are in it with their
    values. *)
Theorem C7_make_order_payload (client : exchange) (pair side : string) (quantity : pyval)
    (market positionSide : string) (timeInForce price stopPrice : pyval)
    (workingType : string) (priceProtect closePosition : bool) (s : state) :
  exists kw : dict,
    issued (make_order client pair side quantity market positionSide timeInForce price
              stopPrice workingType priceProtect closePosition) s
    = [new_order_call kw]
    /\ omits_unset (wire_payload kw)
    /\ dict_get (wire_payload kw) "symbol" = Some (PyStr pair)
    /\ dict_get (wire_payload kw) "side" = Some (PyStr side)
    /\ dict_get (wire_payload kw) "positionSide" = Some (PyStr positionSide)
    /\ dict_get (wire_payload kw) "type" = Some (PyStr market)
    /\ dict_get (wire_payload kw) "quantity" = sent quantity
    /\ dict_get (wire_payload kw) "timeInForce" = sent timeInForce
    /\ dict_get (wire_payload kw) "price" = sent price
    /\ dict_get (wire_payload kw) "stopPrice" = sent stopPrice
    /\ dict_get (wire_payload kw) "workingType" = Some (PyStr workingType)
    /\ dict_get (wire_payload kw) "priceProtect" = Some (PyBool priceProtect)
    /\ dict_get (wire_payload kw) "closePosition" = Some (PyBool closePosition)
    /\ dict_get (wire_payload kw) "recvWindow" = Some (PyInt 6000).
Proof.
  exists (order_kwargs pair side quantity market positionSide timeInForce price stopPrice
            workingType priceProtect closePosition).
  split; [apply issued_of; unfold final; by rewrite make_order_run|].
  split; [apply wire_payload_omits_unset, order_kwargs_keys|].
  rewrite !wire_payload_get by apply order_kwargs_keys.
  repeat split; reflexivity.
Qed.

(** ** Instrument metadata *)

(** C8, as stated, fails: when the exchange-info call raises,
    [get_precisions] returns [None], as it does after a successful call, and
    no error reaches the caller. *)
Lemma C8_counterexample :
  on_exchange_info listing_down (history initial_state) = Raise unreachable
  /\ surfaces_error (result (get_precisions listing_down) initial_state) = false
  /\ result (get_precisions listing_down) initial_state
     = result (get_precisions healthy) initial_state.
Proof. repeat split; reflexivity. Qed.

Lemma get_pair_parameters_unknown (client : exchange) (pair : string) (s : state)
    (c : caches) :
  attrs s = Some c -> min_sizes c !! pair = None ->
  get_pair_parameters client pair s = (Return (error_dict (KeyError pair)), s).
Proof.
  intros Hattrs Hmin. unfold get_pair_parameters, try_except, bind, getitem.
  by rewrite Hattrs, Hmin.
Qed.

(** C8, amended: [get_precisions] returns [None] whether or not the
    exchange-info call fails, and on a failure leaves the cached dictionaries
    as they were; [get_pair_parameters] for a symbol without an entry in the
    cached minimum sizes returns the dict with the key "error" bound to the
    KeyError of that symbol, without calling the exchange; when the
    exchange-info call succeeds, the five dictionaries are replaced by ones
    built from empty out of the listing alone, holding no symbol that is not
    in the listing. *)
Theorem C8_metadata_loading :
  (forall (client : exchange) (s : state),
      result (get_precisions client) s = Return PyNone
      /\ (forall e : exn,
             on_exchange_info client (history s) = Raise e ->
             attrs (final (get_precisions client) s) = attrs s))
  /\ (forall (client : exchange) (pair : string) (s : state) (c : caches),
         attrs s = Some c -> min_sizes c !! pair = None ->
         result (get_pair_parameters client pair) s = Return (error_dict (KeyError pair))
         /\ surfaces_error (result (get_pair_parameters client pair) s) = true
         /\ issued (get_pair_parameters client pair) s = [])
  /\ (forall (client : exchange) (s : state) (info : list symbol_info),
         on_exchange_info client (history s) = Return info ->
         attrs (final (get_precisions client) s) = Some (loaded info)
         /\ keys_within (loaded info) (map symbol info)).
Proof.
  split; [|split].
  - intros client s. unfold result, final.
    destruct (on_exchange_info client (history s)) as [info|e] eqn:Hinfo.
    + rewrite (get_precisions_loaded _ _ _ Hinfo). split; [reflexivity|]. discriminate.
    + rewrite (get_precisions_failed _ _ _ Hinfo). split; [reflexivity|]. reflexivity.
  - intros client pair s c Hattrs Hmin. unfold result, issued, final.
    rewrite (get_pair_parameters_unknown _ _ _ _ Hattrs Hmin). cbn [fst snd].
    repeat split. apply drop_all.
  - intros client s info Hinfo. unfold final.
    rewrite (get_precisions_loaded _ _ _ Hinfo). split; [reflexivity|apply loaded_keys].
Qed.

Lemma C8_metadata_loading_witness :
  attrs (final (get_precisions listing_down) initial_state) = attrs initial_state
  /\ result (get_pair_parameters healthy "DOGEUSDT") healthy_state
     = Return (error_dict (KeyError "DOGEUSDT"))
  /\ attrs (final (get_precisions healthy) initial_state)
     = Some (loaded [btc_info; eth_info]).
Proof.
  split; [|split].
  - exact (proj2 (proj1 C8_metadata_loading listing_down initial_state)
             unreachable eq_refl).
  - apply (proj1 (proj2 C8_metadata_loading) healthy "DOGEUSDT" healthy_state
             (loaded [btc_info; eth_info])).
    + vm_compute. reflexivity.
    + vm_compute. reflexivity.
  - exact (proj1 (proj2 (proj2 C8_metadata_loading) healthy initial_state
                    [btc_info; eth_info] eq_refl)).
Defined.

Lemma get_pair_parameters_run (client : exchange) (pair : string) (s : state) (c : caches)
    (min_size price step_size tick_size : float) (price_precision quantity_precision : Z) :
  attrs s = Some c ->
  min_sizes c !! pair = Some min_size ->
  on_ticker_price client (history s) pair = Return price ->
  prices_precisions c !! pair = Some price_precision ->
  quantity_precisions c !! pair = Some quantity_precision ->
  step_sizes c !! pair = Some step_size ->
  (if bool_decide (pair ≠ "BTCUSDT") then tick_sizes c !! pair = Some tick_size
   else tick_size = 0.1) ->
  result (get_pair_parameters client pair) s
  = Return (PyDict [ ("min_size", PyFloat min_size);
                     ("price", PyFloat price);
                     ("price_precision", PyInt price_precision);
                     ("quantity_precision", PyInt quantity_precision);
                     ("step_size", PyFloat step_size);
                     ("tick_size", PyFloat tick_size) ]).
Proof.
  intros Hattrs Hmin Hprice Hpp Hqp Hstep Htick.
  assert (Hget : forall (V : Type) (name : string) (field : caches -> gmap string V)
                   (v : V) (h : list call),
             field c !! pair = Some v ->
             getitem name field pair (State h (attrs s)) = (Return v, State h (attrs s))).
  { intros V name field v h Hv. unfold getitem. cbn [attrs]. by rewrite Hattrs, Hv. }
  unfold result, get_pair_parameters, try_except.
  destruct s as [h a]. cbn [attrs history] in *.
  rewrite (bind_return _ _ _ _ _ (Hget _ _ _ _ _ Hmin)).
  rewrite (bind_return _ _ _ price (State (h ++ [ticker_price_call pair]) a))
    by (unfold client_ticker_price, issue; cbn [history attrs]; by rewrite Hprice).
  rewrite (bind_return _ _ _ _ _ (Hget _ _ _ _ _ Hpp)).
  rewrite (bind_return _ _ _ _ _ (Hget _ _ _ _ _ Hqp)).
  rewrite (bind_return _ _ _ _ _ (Hget _ _ _ _ _ Hstep)).
  case_bool_decide.
  - by rewrite (bind_return _ _ _ _ _ (Hget _ _ _ _ _ Htick)).
  - by rewrite Htick.
Qed.

(** C9: for a symbol whose minimum size, price precision, quantity precision
    and step size are cached and whose ticker price is fetched,
    [get_pair_parameters] returns tick_size 0.1 when the symbol is BTCUSDT,
    whatever tick size the load stored for it (or none), and for any other
    symbol the tick size stored at load time. *)
Theorem C9_tick_size (client : exchange) (pair : string) (s : state) (c : caches)
    (min_size price step_size : float) (price_precision quantity_precision : Z) :
  attrs s = Some c ->
  min_sizes c !! pair = Some min_size ->
  on_ticker_price client (history s) pair = Return price ->
  prices_precisions c !! pair = Some price_precision ->
  quantity_precisions c !! pair = Some quantity_precision ->
  step_sizes c !! pair = Some step_size ->
  (pair = "BTCUSDT" ->
   exists params : dict,
     result (get_pair_parameters client pair) s = Return (PyDict params)
     /\ dict_get params "tick_size" = Some (PyFloat 0.1))
  /\ (forall tick_size : float,
         pair <> "BTCUSDT" -> tick_sizes c !! pair = Some tick_size ->
         exists params : dict,
           result (get_pair_parameters client pair) s = Return (PyDict params)
           /\ dict_get params "tick_size" = Some (PyFloat tick_size)).
Proof.
  intros Hattrs Hmin Hprice Hpp Hqp Hstep. split.
  - intros Hbtc. eexists. split.
    + apply (get_pair_parameters_run client pair s c min_size price step_size 0.1
               price_precision quantity_precision); try done.
      by rewrite bool_decide_eq_false_2 by (intros Hne; apply Hne, Hbtc).
    + reflexivity.
  - intros tick_size Hne Htick. eexists. split.
    + apply (get_pair_parameters_run client pair s c min_size price step_size tick_size
               price_precision quantity_precision); try done.
      by rewrite bool_decide_eq_true_2.
    + reflexivity.
Qed.

Lemma C9_tick_size_witness :
  tick_sizes (loaded [btc_info; eth_info]) !! "BTCUSDT" = Some 0.01
  /\ (exists params : dict,
         result (get_pair_parameters healthy "BTCUSDT") healthy_state
         = Return (PyDict params)
         /\ dict_get params "tick_size" = Some (PyFloat 0.1))
  /\ (exists params : dict,
         result (get_pair_parameters healthy "ETHUSDT") healthy_state
         = Return (PyDict params)
         /\ dict_get params "tick_size" = Some (PyFloat 0.01)).
Proof.
  split; [vm_compute; reflexivity|]. split.
  - apply (proj1 (C9_tick_size healthy "BTCUSDT" healthy_state
                    (loaded [btc_info; eth_info]) 0.001 100 0.001 2 3
                    ltac:(vm_compute; reflexivity) ltac:(vm_compute; reflexivity)
                    eq_refl ltac:(vm_compute; reflexivity)
                    ltac:(vm_compute; reflexivity) ltac:(vm_compute; reflexivity))).
    reflexivity.
  - apply (proj2 (C9_tick_size healthy "ETHUSDT" healthy_state
                    (loaded [btc_info; eth_info]) 0.001 100 0.001 2 3
                    ltac:(vm_compute; reflexivity) ltac:(vm_compute; reflexivity)
                    eq_refl ltac:(vm_compute; reflexivity)
                    ltac:(vm_compute; reflexivity) ltac:(vm_compute; reflexivity))).
    + discriminate.
    + vm_compute. reflexivity.
Defined.

(** ** Balance *)

Lemma scan_balance_none (coin : string) (response : list asset_balance) (bal : pyval) :
  (forall r : asset_balance, r ∈ response -> asset r <> coin) ->
  scan_balance coin response bal = bal.
Proof.
  induction response as [|r response IH]; intros Hnone; [reflexivity|].
  cbn. rewrite bool_decide_eq_false_2 by (apply Hnone, list_elem_of_here).
  apply IH. intros r' Hin. apply Hnone. by apply list_elem_of_further.
Qed.

Lemma scan_balance_first (coin : string) (before after : list asset_balance)
    (r : asset_balance) (bal : pyval) :
  (forall r' : asset_balance, r' ∈ before -> asset r' <> coin) ->
  asset r = coin ->
  scan_balance coin (before ++ r :: after) bal = PyFloat (balance r).
Proof.
  induction before as [|r0 before IH]; intros Hnone Hr; cbn.
  - by rewrite bool_decide_eq_true_2.
  - rewrite bool_decide_eq_false_2 by (apply Hnone, list_elem_of_here).
    apply IH; [|done]. intros r' Hin. apply Hnone. by apply list_elem_of_further.
Qed.

(** C10: when the balances response has no entry whose asset is the
    requested coin, [get_balance] returns 0 and no error; when it has one, it
    returns the balance of the first such entry, as a float. *)
Theorem C10_get_balance (client : exchange) (coin : string) (s : state)
    (response : list asset_balance) :
  on_balance client (history s) 6000 = Return response ->
  ((forall r : asset_balance, r ∈ response -> asset r <> coin) ->
   result (get_balance client coin) s = Return (PyInt 0))
  /\ (forall (before after : list asset_balance) (r : asset_balance),
         response = before ++ r :: after ->
         (forall r' : asset_balance, r' ∈ before -> asset r' <> coin) ->
         asset r = coin ->
         result (get_balance client coin) s = Return (PyFloat (balance r))).
Proof.
  intros Hbal.
  assert (Hrun : result (get_balance client coin) s
                 = Return (scan_balance coin response (PyInt 0))).
  { unfold result, get_balance, try_except, bind, client_balance, issue.
    by rewrite Hbal. }
  rewrite Hrun. split.
  - intros Hnone. by rewrite scan_balance_none.
  - intros before after r -> Hnone Hr. by rewrite scan_balance_first.
Qed.

Lemma C10_get_balance_witness :
  result (get_balance healthy "BUSD") initial_state = Return (PyInt 0)
  /\ result (get_balance healthy "USDT") initial_state = Return (PyFloat 250.5).
Proof.
  split.
  - apply (proj1 (C10_get_balance healthy "BUSD" initial_state
                    [AssetBalance "BNB" 1; AssetBalance "USDT" 250.5;
                     AssetBalance "USDT" 7] eq_refl)).
    intros r Hin. apply list_elem_of_In in Hin.
    destruct Hin as [<-|[<-|[<-|[]]]]; discriminate.
  - apply (proj2 (C10_get_balance healthy "USDT" initial_state
                    [AssetBalance "BNB" 1; AssetBalance "USDT" 250.5;
                     AssetBalance "USDT" 7] eq_refl)
             [AssetBalance "BNB" 1] [AssetBalance "USDT" 7] (AssetBalance "USDT" 250.5)).
    + reflexivity.
    + intros r Hin. apply list_elem_of_In in Hin. destruct Hin as [<-|[]]. discriminate.
    + reflexivity.
Defined.

(** ** Further properties: protective orders *)

Lemma place_result (client : exchange) (round_step_size : float -> float -> outcome float)
    (kind : protective) (pair side : string) (precized_quantity : pyval)
    (pct tick_size : float) (s : state) :
  result (place kind client round_step_size pair side precized_quantity pct tick_size) s
  = match on_ticker_price client (history s) pair with
    | Raise e => Return (error_dict e)
    | Return price =>
        match on_account client (history s ++ [ticker_price_call pair]) with
        | Raise e => Return (error_dict e)
        | Return positions =>
            match round_step_size (spec_trigger kind (is_long side) price pct)
                    tick_size with
            | Raise e => Return (error_dict e)
            | Return trigger =>
                caught (on_new_order client
                          (history s
                           ++ ticker_price_call pair :: account_call
                              :: (if existsb (open_for pair side) positions then []
                                  else [new_order_call
                                          (market_kwargs pair side precized_quantity)]))
                          (protective_kwargs kind pair side trigger))
            end
        end
    end.
Proof.
  unfold result, open_for, protective_kwargs, spec_trigger, is_long.
  destruct kind; cbn [place protective_type];
    [unfold stop_loss_order | unfold take_profit_order];
    unfold try_except, bind, client_ticker_price, client_account, issue, lift, ret;
    cbn [history attrs fst snd];
    (destruct (on_ticker_price client (history s) pair) as [price|e]; [|reflexivity]);
    (destruct (on_account client (history s ++ [ticker_price_call pair])) as [positions|e];
       [|reflexivity]);
    case_bool_decide;
    (destruct (round_step_size _ tick_size) as [trigger|e]; [|reflexivity]);
    destruct (existsb _ positions);
    rewrite ?market_order_run, ?make_order_run; cbn [history attrs fst snd];
    rewrite <- ?app_assoc; cbn [app];
    repeat match goal with
           | |- context [match caught ?o with _ => _ end] =>
               destruct o eqn:?; cbn [caught]
           end;
    rewrite ?make_order_run; cbn [history attrs fst snd]; rewrite <- ?app_assoc; cbn [app];
    repeat match goal with
           | |- context [on_new_order ?c ?h ?kw] =>
               destruct (on_new_order c h kw); cbn [caught fst]
           end;
    reflexivity.
Qed.

(** X1: [stop_loss_order] and [take_profit_order] place no order unless the
    price, the positions and the rounded trigger were all obtained: a raising
    ticker call ends the method after that one call, a raising account call
    or rounding helper after the two fetches, and the method returns the dict
    with the key "error" bound to the exception. *)
Theorem place_nothing_on_failure (client : exchange)
    (round_step_size : float -> float -> outcome float) (kind : protective)
    (pair side : string) (precized_quantity : pyval) (pct tick_size : float) (s : state)
    (e : exn) :
  (on_ticker_price client (history s) pair = Raise e
   \/ (exists price : float,
          on_ticker_price client (history s) pair = Return price
          /\ (on_account client (history s ++ [ticker_price_call pair]) = Raise e
              \/ exists positions : list position,
                   on_account client (history s ++ [ticker_price_call pair])
                   = Return positions
                   /\ round_step_size (spec_trigger kind (is_long side) price pct)
                        tick_size = Raise e))) ->
  orders (issued (place kind client round_step_size pair side precized_quantity pct
                    tick_size) s) = []
  /\ length (issued (place kind client round_step_size pair side precized_quantity pct
                       tick_size) s) <= 2
  /\ result (place kind client round_step_size pair side precized_quantity pct tick_size) s
     = Return (error_dict e).
Proof.
  intros Hfail. rewrite place_result.
  erewrite issued_of by (rewrite place_final; reflexivity).
  unfold place_calls.
  destruct Hfail as [->|(price & -> & [->|(positions & -> & ->)])]; cbn; auto.
Qed.

Lemma place_nothing_on_failure_witness :
  orders (issued (stop_loss_order healthy strict_step "BTCUSDT" "long" (PyFloat 0.01) 2 0)
            initial_state) = []
  /\ result (stop_loss_order healthy strict_step "BTCUSDT" "long" (PyFloat 0.01) 2 0)
       initial_state = Return (error_dict (ValueError "step")).
Proof.
  destruct (place_nothing_on_failure healthy strict_step StopLoss "BTCUSDT" "long"
              (PyFloat 0.01) 2 0 initial_state (ValueError "step")) as (Hnone & _ & Hres).
  - right. exists 100. split; [reflexivity|]. right.
    exists [Position "BTCUSDT" 0.5 "LONG"; Position "ETHUSDT" (-2) "SHORT";
            Position "XRPUSDT" 0 "BOTH"].
    split; reflexivity.
  - split; assumption.
Defined.

(** X2: when the entry market order is rejected by the exchange, the
    protective order is sent all the same, and what the method returns is the
    answer to the protective order alone: the rejection of the entry order
    does not reach the caller. *)
Theorem place_ignores_entry_rejection (client : exchange)
    (round_step_size : float -> float -> outcome float) (kind : protective)
    (pair side : string) (precized_quantity : pyval) (pct tick_size : float) (s : state)
    (price : float) (positions : list position) (trigger : float) (e : exn) :
  on_ticker_price client (history s) pair = Return price ->
  on_account client (history s ++ [ticker_price_call pair]) = Return positions ->
  round_step_size (spec_trigger kind (is_long side) price pct) tick_size = Return trigger ->
  existsb (open_for pair side) positions = false ->
  on_new_order client (history s ++ [ticker_price_call pair; account_call])
    (market_kwargs pair side precized_quantity) = Raise e ->
  orders (issued (place kind client round_step_size pair side precized_quantity pct
                    tick_size) s)
  = [market_kwargs pair side precized_quantity; protective_kwargs kind pair side trigger]
  /\ result (place kind client round_step_size pair side precized_quantity pct tick_size) s
     = caught (on_new_order client
                 (history s
                  ++ [ticker_price_call pair; account_call;
                      new_order_call (market_kwargs pair side precized_quantity)])
                 (protective_kwargs kind pair side trigger)).
Proof.
  intros Hprice Hacc Hround Hnone _.
  rewrite (place_orders _ _ _ _ _ _ _ _ _ _ _ _ Hprice Hacc Hround), place_result.
  by rewrite Hprice, Hacc, Hround, Hnone.
Qed.

Lemma place_ignores_entry_rejection_witness :
  on_new_order entry_rejecting [ticker_price_call "BTCUSDT"; account_call]
    (market_kwargs "BTCUSDT" "long" (PyFloat 0.01)) = Raise rejected
  /\ result (stop_loss_order entry_rejecting nearest_step "BTCUSDT" "long"
               (PyFloat 0.01) 2 0.1)
       initial_state = Return ack.
Proof.
  split; [reflexivity|].
  exact (proj2 (place_ignores_entry_rejection entry_rejecting nearest_step StopLoss "BTCUSDT" "long"
                  (PyFloat 0.01) 2 0.1 initial_state 100 [] 98 rejected
                  eq_refl eq_refl eq_refl eq_refl eq_refl)).
Defined.

(** X3: a position whose positionSide is "BOTH", as every position of an
    account in one-way mode is reported, never counts as an existing
    position: whatever its amount, the entry market order is placed before
    the protective one. *)
Theorem place_enters_beside_both_position (client : exchange)
    (round_step_size : float -> float -> outcome float) (kind : protective)
    (pair side : string) (precized_quantity : pyval) (pct tick_size : float) (s : state)
    (price : float) (positions : list position) (trigger : float) :
  on_ticker_price client (history s) pair = Return price ->
  on_account client (history s ++ [ticker_price_call pair]) = Return positions ->
  round_step_size (spec_trigger kind (is_long side) price pct) tick_size = Return trigger ->
  (forall pos : position,
      pos ∈ positions -> pos_symbol pos = pair -> positionSide pos = "BOTH") ->
  orders (issued (place kind client round_step_size pair side precized_quantity pct
                    tick_size) s)
  = [market_kwargs pair side precized_quantity; protective_kwargs kind pair side trigger].
Proof.
  intros Hprice Hacc Hround Hboth.
  rewrite (place_orders _ _ _ _ _ _ _ _ _ _ _ _ Hprice Hacc Hround).
  destruct (existsb (open_for pair side) positions) eqn:Hex; [|reflexivity].
  apply existsb_exists in Hex as (pos & Hin & Hopen).
  apply list_elem_of_In in Hin. apply open_for_matching in Hopen.
  destruct Hopen as (Hsym & _ & _ & Hside).
  rewrite (Hboth pos Hin Hsym) in Hside. by destruct (is_long side).
Qed.

Lemma place_enters_beside_both_position_witness :
  orders (issued (stop_loss_order one_way nearest_step "BTCUSDT" "long" (PyFloat 0.01)
                    2 0.1) initial_state)
  = [market_kwargs "BTCUSDT" "long" (PyFloat 0.01);
     protective_kwargs StopLoss "BTCUSDT" "long" 98].
Proof.
  apply (place_enters_beside_both_position one_way nearest_step StopLoss "BTCUSDT" "long"
           (PyFloat 0.01) 2 0.1 initial_state 100 [Position "BTCUSDT" 0.5 "BOTH"] 98
           eq_refl eq_refl eq_refl).
  intros pos Hin _. apply list_elem_of_In in Hin. destruct Hin as [<-|[]]. reflexivity.
Defined.

(** X4: every order of [stop_loss_order] and [take_profit_order] is sent with
    positionSide "BOTH"; the entry order buys and the protective order sells
    exactly when the side is the string "long", and any other side string
    makes the entry order a SELL and the protective order a BUY. *)
Theorem place_order_sides (client : exchange)
    (round_step_size : float -> float -> outcome float) (kind : protective)
    (pair side : string) (precized_quantity : pyval) (pct tick_size : float) (s : state)
    (kw : dict) :
  kw ∈ orders (issued (place kind client round_step_size pair side precized_quantity pct
                         tick_size) s) ->
  dict_get kw "positionSide" = Some (PyStr "BOTH")
  /\ (dict_get kw "type" = Some (PyStr "MARKET") ->
      dict_get kw "side" = Some (PyStr (if bool_decide (side = "long")
                                        then "BUY" else "SELL")))
  /\ (is_protective kw ->
      dict_get kw "side" = Some (PyStr (if bool_decide (side = "long")
                                        then "SELL" else "BUY"))).
Proof.
  intros [->|[trigger ->]]%place_orders_any.
  - split; [reflexivity|]. split; [reflexivity|].
    intros Hprot. by apply market_kwargs_not_protective in Hprot.
  - split; [reflexivity|]. split; [|reflexivity].
    destruct kind; discriminate.
Qed.

Lemma place_order_sides_witness :
  let kw := market_kwargs "XRPUSDT" "LONG" (PyFloat 30) in
  dict_get kw "positionSide" = Some (PyStr "BOTH")
  /\ (dict_get kw "type" = Some (PyStr "MARKET") -> dict_get kw "side" = Some (PyStr "SELL"))
  /\ (is_protective kw -> dict_get kw "side" = Some (PyStr "BUY")).
Proof.
  apply (place_order_sides healthy nearest_step TakeProfit "XRPUSDT" "LONG" (PyFloat 30)
           5 0.0001 initial_state).
  vm_compute. apply list_elem_of_here.
Defined.

(** ** Further properties: limit orders and batch operations *)

(** X5: [limit_order] sends exactly one order, of type LIMIT with timeInForce
    GTC, for the given quantity at the price rounded by the helper, a BUY for
    the side "long" and a SELL for any other side, and returns the exchange's
    answer or the error dict of its rejection; when the rounding helper
    raises, no order is sent and the error dict of that exception is
    returned. *)
Theorem limit_order_outcome (client : exchange)
    (round_step_size : float -> float -> outcome float) (pair side : string)
    (precized_quantity : pyval) (limit_price tick_size : float) (s : state) :
  (forall limit_price_round : float,
      round_step_size limit_price tick_size = Return limit_price_round ->
      exists kw : dict,
        issued (limit_order client round_step_size pair side precized_quantity
                  limit_price tick_size) s = [new_order_call kw]
        /\ result (limit_order client round_step_size pair side precized_quantity
                     limit_price tick_size) s
           = caught (on_new_order client (history s) kw)
        /\ dict_get kw "symbol" = Some (PyStr pair)
        /\ dict_get kw "side" = Some (PyStr (if bool_decide (side = "long")
                                             then "BUY" else "SELL"))
        /\ dict_get kw "type" = Some (PyStr "LIMIT")
        /\ dict_get kw "timeInForce" = Some (PyStr "GTC")
        /\ dict_get kw "quantity" = Some precized_quantity
        /\ dict_get kw "price" = Some (PyFloat limit_price_round)
        /\ dict_get kw "stopPrice" = Some PyNone
        /\ dict_get kw "closePosition" = Some (PyBool false))
  /\ (forall e : exn,
         round_step_size limit_price tick_size = Raise e ->
         issued (limit_order client round_step_size pair side precized_quantity
                   limit_price tick_size) s = []
         /\ result (limit_order client round_step_size pair side precized_quantity
                      limit_price tick_size) s = Return (error_dict e)).
Proof.
  split.
  - intros limit_price_round Hround.
    exists (limit_kwargs pair side precized_quantity limit_price_round).
    assert (Hrun : limit_order client round_step_size pair side precized_quantity
                     limit_price tick_size s
                   = (caught (on_new_order client (history s)
                                (limit_kwargs pair side precized_quantity
                                   limit_price_round)),
                      State (history s
                             ++ [new_order_call
                                   (limit_kwargs pair side precized_quantity
                                      limit_price_round)])
                        (attrs s))).
    { unfold limit_order, try_except, bind, lift, ret, limit_kwargs, is_long.
      rewrite Hround. case_bool_decide; rewrite make_order_run;
        destruct (on_new_order client (history s) _); reflexivity. }
    split; [apply issued_of; unfold final; by rewrite Hrun|].
    split; [unfold result; by rewrite Hrun|].
    unfold limit_kwargs, is_long. repeat split; reflexivity.
  - intros e Hround.
    assert (Hrun : limit_order client round_step_size pair side precized_quantity
                     limit_price tick_size s = (Return (error_dict e), s)).
    { unfold limit_order, try_except, bind, lift, ret. by rewrite Hround. }
    unfold issued, final, result. rewrite Hrun. split; [apply drop_all | reflexivity].
Qed.

Lemma limit_order_outcome_witness :
  (exists kw : dict,
      issued (limit_order healthy strict_step "ETHUSDT" "short" (PyFloat 1) 101.234 0.01)
        initial_state = [new_order_call kw]
      /\ dict_get kw "side" = Some (PyStr "SELL")
      /\ dict_get kw "price" = Some (PyFloat 101.23))
  /\ issued (limit_order healthy strict_step "ETHUSDT" "short" (PyFloat 1) 101.234 0)
       initial_state = [].
Proof.
  split.
  - destruct (proj1 (limit_order_outcome healthy strict_step "ETHUSDT" "short" (PyFloat 1)
                       101.234 0.01 initial_state) 101.23 eq_refl)
      as (kw & Hissued & _ & _ & Hside & _ & _ & _ & Hprice & _).
    exists kw. repeat split; assumption.
  - exact (proj1 (proj2 (limit_order_outcome healthy strict_step "ETHUSDT" "short"
                           (PyFloat 1) 101.234 0 initial_state)
                    (ValueError "step") eq_refl)).
Defined.

Lemma close_all_positions_failed (client : exchange) (s : state) (e : exn) :
  on_account client (history s) = Raise e ->
  close_all_positions client s
  = (Return (error_dict e), State (history s ++ [account_call]) (attrs s)).
Proof.
  intros Hfail. unfold close_all_positions, try_except, bind, client_account, issue.
  by rewrite Hfail.
Qed.

Lemma cancel_all_orders_failed (client : exchange) (s : state) (e : exn) :
  on_get_orders client (history s) = Raise e ->
  cancel_all_orders client s
  = (Return (error_dict e), State (history s ++ [get_orders_call]) (attrs s)).
Proof.
  intros Hfail. unfold cancel_all_orders, try_except, bind, client_get_orders, issue.
  by rewrite Hfail.
Qed.

(** X6: when the fetch that opens a batch operation raises, nothing is
    closed or cancelled: [close_all_positions] after a failed account call and
    [cancel_all_orders] after a failed get_orders call issue no further call
    and return the error dict of the exception. *)
Theorem batch_fetch_failure (client : exchange) (s : state) (e : exn) :
  (on_account client (history s) = Raise e ->
   issued (close_all_positions client) s = [account_call]
   /\ result (close_all_positions client) s = Return (error_dict e))
  /\ (on_get_orders client (history s) = Raise e ->
      issued (cancel_all_orders client) s = [get_orders_call]
      /\ result (cancel_all_orders client) s = Return (error_dict e)).
Proof.
  split; intros Hfail.
  - split; [apply issued_of; unfold final | unfold result];
      by rewrite (close_all_positions_failed _ _ _ Hfail).
  - split; [apply issued_of; unfold final | unfold result];
      by rewrite (cancel_all_orders_failed _ _ _ Hfail).
Qed.

Lemma batch_fetch_failure_witness :
  (issued (close_all_positions account_down) initial_state = [account_call]
   /\ result (close_all_positions account_down) initial_state
      = Return (error_dict unreachable))
  /\ (issued (cancel_all_orders account_down) initial_state = [get_orders_call]
      /\ result (cancel_all_orders account_down) initial_state
         = Return (error_dict unreachable)).
Proof.
  split.
  - exact (proj1 (batch_fetch_failure account_down initial_state unreachable) eq_refl).
  - exact (proj2 (batch_fetch_failure account_down initial_state unreachable) eq_refl).
Defined.

(** X7: the orders by which [close_all_positions] closes positions are plain
    one-way market orders: positionSide "BOTH" also for a position reported
    as LONG or SHORT, closePosition and priceProtect false, and no price,
    stopPrice or timeInForce. *)
Theorem closing_orders_plain (client : exchange) (s : state) (kw : dict) :
  kw ∈ orders (issued (close_all_positions client) s) ->
  dict_get kw "type" = Some (PyStr "MARKET")
  /\ dict_get kw "positionSide" = Some (PyStr "BOTH")
  /\ dict_get kw "closePosition" = Some (PyBool false)
  /\ dict_get kw "priceProtect" = Some (PyBool false)
  /\ dict_get kw "price" = Some PyNone
  /\ dict_get kw "stopPrice" = Some PyNone
  /\ dict_get kw "timeInForce" = Some PyNone.
Proof.
  destruct (on_account client (history s)) as [positions|e] eqn:Hacc.
  - rewrite (close_all_positions_orders _ _ _ Hacc).
    intros Hin. apply list_elem_of_In, in_flat_map in Hin as (pos & _ & Hin).
    unfold closing_kwargs in Hin.
    destruct (0 <? positionAmt pos); [|destruct (positionAmt pos <? 0)];
      cbn in Hin; try destruct Hin as [<-|[]]; try done; repeat split; reflexivity.
  - erewrite issued_of
      by (unfold final; rewrite (close_all_positions_failed _ _ _ Hacc); reflexivity).
    cbn. by intros ?%elem_of_nil.
Qed.

Lemma closing_orders_plain_witness :
  let kw := market_kwargs "ETHUSDT" "long" (PyFloat 2) in
  dict_get kw "type" = Some (PyStr "MARKET")
  /\ dict_get kw "positionSide" = Some (PyStr "BOTH")
  /\ dict_get kw "closePosition" = Some (PyBool false)
  /\ dict_get kw "priceProtect" = Some (PyBool false)
  /\ dict_get kw "price" = Some PyNone
  /\ dict_get kw "stopPrice" = Some PyNone
  /\ dict_get kw "timeInForce" = Some PyNone.
Proof.
  apply (closing_orders_plain healthy initial_state).
  vm_compute. apply list_elem_of_further, list_elem_of_here.
Defined.

(** ** Further properties: instrument metadata *)

(** What a dictionary holds for [sym] after assignments of [v x] for the
    elements [x] of [l], in order, on top of a previous entry [old]. *)
Lemma last_assignment {A V : Type} (v : A -> V) (old : option V) (x : A) (l : list A) :
  from_option (fun y => Some (v y)) old (last (x :: l))
  = from_option (fun y => Some (v y)) (Some (v x)) (last l).
Proof. rewrite last_cons. by destruct (last l). Qed.

Lemma loaded_filters_precisions (sym : string) (fs : list symbol_filter) (c : caches) :
  quantity_precisions (foldl (loaded_filter sym) c fs) = quantity_precisions c
  /\ prices_precisions (foldl (loaded_filter sym) c fs) = prices_precisions c.
Proof.
  revert c. induction fs as [|f fs IH]; intros c; [done|].
  cbn. destruct (IH (loaded_filter sym c f)) as [-> ->].
  unfold loaded_filter. by repeat case_bool_decide.
Qed.

Section FilterField.

Context {V : Type} (field : caches -> gmap string V) (ftype : string)
  (value : symbol_filter -> V).

Hypothesis field_step : forall (sym : string) (c : caches) (f : symbol_filter),
  field (loaded_filter sym c f)
  = if bool_decide (filterType f = ftype) then <[sym := value f]> (field c) else field c.

Hypothesis field_item : forall (c : caches) (qp pp : gmap string Z),
  field (Caches qp pp (step_sizes c) (tick_sizes c) (min_sizes c)) = field c.

Lemma loaded_filters_field (s sym : string) (fs : list symbol_filter) (c : caches) :
  field (foldl (loaded_filter s) c fs) !! sym
  = if bool_decide (s = sym)
    then from_option (fun f => Some (value f)) (field c !! sym)
           (last (List.filter (fun f => bool_decide (filterType f = ftype)) fs))
    else field c !! sym.
Proof using field_step.
  revert c. induction fs as [|f fs IH]; intros c; [by case_bool_decide|].
  cbn [foldl List.filter]. rewrite IH, field_step.
  destruct (decide (s = sym)) as [->|Hne].
  - rewrite !bool_decide_eq_true_2 by done.
    destruct (bool_decide (filterType f = ftype)); [|done].
    by rewrite last_assignment, lookup_insert_eq.
  - rewrite !bool_decide_eq_false_2 by done.
    destruct (bool_decide (filterType f = ftype)); [|done].
    by rewrite lookup_insert_ne.
Qed.

Lemma loaded_field (info : list symbol_info) (sym : string) (c : caches) :
  field (foldl loaded_item c info) !! sym
  = from_option (fun f => Some (value f)) (field c !! sym)
      (last (filters_of sym ftype info)).
Proof using field_step field_item.
  revert c. induction info as [|item info IH]; intros c; [done|].
  cbn [foldl]. rewrite IH. unfold loaded_item. rewrite loaded_filters_field, field_item.
  unfold filters_of, items_of. cbn [List.filter].
  destruct (decide (symbol item = sym)) as [Heq|Hne].
  - rewrite !bool_decide_eq_true_2 by done. cbn [flat_map].
    rewrite List.filter_app, last_app.
    by destruct (last (List.filter _ (flat_map filters _))).
  - by rewrite !bool_decide_eq_false_2 by done.
Qed.

End FilterField.

Lemma loaded_tick_sizes (info : list symbol_info) (sym : string) :
  tick_sizes (loaded info) !! sym = tickSize <$> last (filters_of sym "PRICE_FILTER" info).
Proof.
  unfold loaded. rewrite (loaded_field tick_sizes "PRICE_FILTER" tickSize).
  - cbn. rewrite lookup_empty. by destruct (last _).
  - intros s c f. unfold loaded_filter. by repeat case_bool_decide.
  - done.
Qed.

Lemma loaded_min_sizes (info : list symbol_info) (sym : string) :
  min_sizes (loaded info) !! sym = minQty <$> last (filters_of sym "LOT_SIZE" info).
Proof.
  unfold loaded. rewrite (loaded_field min_sizes "LOT_SIZE" minQty).
  - cbn. rewrite lookup_empty. by destruct (last _).
  - intros s c f. unfold loaded_filter. by repeat case_bool_decide.
  - done.
Qed.

Lemma loaded_step_sizes (info : list symbol_info) (sym : string) :
  step_sizes (loaded info) !! sym = stepSize <$> last (filters_of sym "LOT_SIZE" info).
Proof.
  unfold loaded. rewrite (loaded_field step_sizes "LOT_SIZE" stepSize).
  - cbn. rewrite lookup_empty. by destruct (last _).
  - intros s c f. unfold loaded_filter. by repeat case_bool_decide.
  - done.
Qed.

Lemma loaded_items_precisions (info : list symbol_info) (sym : string) (c : caches) :
  quantity_precisions (foldl loaded_item c info) !! sym
  = from_option (fun item => Some (quantityPrecision item)) (quantity_precisions c !! sym)
      (last (items_of sym info))
  /\ prices_precisions (foldl loaded_item c info) !! sym
     = from_option (fun item => Some (pricePrecision item)) (prices_precisions c !! sym)
         (last (items_of sym info)).
Proof.
  revert c. induction info as [|item info IH]; intros c; [done|].
  cbn [foldl]. destruct (IH (loaded_item c item)) as [-> ->].
  unfold loaded_item.
  destruct (loaded_filters_precisions (symbol item) (filters item)
              (Caches (<[symbol item := quantityPrecision item]> (quantity_precisions c))
                 (<[symbol item := pricePrecision item]> (prices_precisions c))
                 (step_sizes c) (tick_sizes c) (min_sizes c))) as [-> ->].
  unfold items_of. cbn [List.filter quantity_precisions prices_precisions].
  destruct (decide (symbol item = sym)) as [Heq|Hne].
  - rewrite !bool_decide_eq_true_2 by done. rewrite !last_assignment.
    by rewrite Heq, !lookup_insert_eq.
  - rewrite !bool_decide_eq_false_2 by done. by rewrite !lookup_insert_ne.
Qed.

Lemma loaded_precisions (info : list symbol_info) (sym : string) :
  quantity_precisions (loaded info) !! sym = quantityPrecision <$> last (items_of sym info)
  /\ prices_precisions (loaded info) !! sym = pricePrecision <$> last (items_of sym info).
Proof.
  destruct (loaded_items_precisions info sym empty_caches) as [Hq Hp].
  unfold loaded. rewrite Hq, Hp. cbn. rewrite !lookup_empty.
  by destruct (last (items_of sym info)).
Qed.

Lemma get_precisions_final (client : exchange) (info : list symbol_info) (s : state) :
  on_exchange_info client (history s) = Return info ->
  final (get_precisions client) s
  = State (history s ++ [exchange_info_call]) (Some (loaded info)).
Proof. intros Hinfo. unfold final. by rewrite (get_precisions_loaded _ _ _ Hinfo). Qed.

(** X8: load, then look up.  After [get_precisions] has loaded a listing,
    [get_pair_parameters] returns for a symbol the precisions of its last
    entry in the listing, the minQty and stepSize of its last LOT_SIZE filter
    and, unless the symbol is BTCUSDT (then 0.1), the tickSize of its last
    PRICE_FILTER filter, with the ticker price just fetched: a later entry of
    the listing overrides an earlier one. *)
Theorem load_then_lookup (client : exchange) (s : state) (info : list symbol_info)
    (pair : string) (item : symbol_info) (lot price_filter : symbol_filter)
    (price : float) :
  on_exchange_info client (history s) = Return info ->
  last (items_of pair info) = Some item ->
  last (filters_of pair "LOT_SIZE" info) = Some lot ->
  (pair <> "BTCUSDT" -> last (filters_of pair "PRICE_FILTER" info) = Some price_filter) ->
  on_ticker_price client (history s ++ [exchange_info_call]) pair = Return price ->
  result (get_pair_parameters client pair) (final (get_precisions client) s)
  = Return (PyDict [ ("min_size", PyFloat (minQty lot));
                     ("price", PyFloat price);
                     ("price_precision", PyInt (pricePrecision item));
                     ("quantity_precision", PyInt (quantityPrecision item));
                     ("step_size", PyFloat (stepSize lot));
                     ("tick_size", PyFloat (if bool_decide (pair = "BTCUSDT")
                                            then 0.1 else tickSize price_filter)) ]).
Proof.
  intros Hinfo Hitem Hlot Hpf Hprice. rewrite (get_precisions_final _ _ _ Hinfo).
  destruct (loaded_precisions info pair) as [Hq Hp].
  apply (get_pair_parameters_run client pair _ (loaded info)); cbn [attrs history].
  - reflexivity.
  - by rewrite loaded_min_sizes, Hlot.
  - exact Hprice.
  - by rewrite Hp, Hitem.
  - by rewrite Hq, Hitem.
  - by rewrite loaded_step_sizes, Hlot.
  - destruct (decide (pair = "BTCUSDT")) as [Hbtc|Hne].
    + rewrite bool_decide_eq_false_2 by (intros Hne; apply Hne, Hbtc).
      by rewrite bool_decide_eq_true_2.
    + rewrite bool_decide_eq_true_2 by done. rewrite (bool_decide_eq_false_2 _ Hne).
      by rewrite loaded_tick_sizes, (Hpf Hne).
Qed.

Lemma load_then_lookup_witness :
  result (get_pair_parameters relisted "ETHUSDT")
    (final (get_precisions relisted) initial_state)
  = Return (PyDict [ ("min_size", PyFloat 0.001);
                     ("price", PyFloat 100);
                     ("price_precision", PyInt 1);
                     ("quantity_precision", PyInt 2);
                     ("step_size", PyFloat 0.001);
                     ("tick_size", PyFloat 0.05) ]).
Proof.
  exact (load_then_lookup relisted initial_state
           [btc_info; eth_info;
            SymbolInfo "ETHUSDT" 2 1 [SymbolFilter "PRICE_FILTER" 0.05 0 0]]
           "ETHUSDT" (SymbolInfo "ETHUSDT" 2 1 [SymbolFilter "PRICE_FILTER" 0.05 0 0])
           (SymbolFilter "LOT_SIZE" 0 0.001 0.001) (SymbolFilter "PRICE_FILTER" 0.05 0 0)
           100 eq_refl eq_refl eq_refl (fun _ => eq_refl) eq_refl).
Defined.

(** X9: a symbol of the listing without a LOT_SIZE filter is loaded without
    complaint, its precisions are cached, and every later
    [get_pair_parameters] for it returns the error dict of a KeyError without
    asking the exchange for the price. *)
Theorem lot_size_filter_missing (client : exchange) (s : state)
    (info : list symbol_info) (pair : string) (item : symbol_info) :
  on_exchange_info client (history s) = Return info ->
  last (items_of pair info) = Some item ->
  filters_of pair "LOT_SIZE" info = [] ->
  result (get_precisions client) s = Return PyNone
  /\ (exists c : caches,
         attrs (final (get_precisions client) s) = Some c
         /\ quantity_precisions c !! pair = Some (quantityPrecision item)
         /\ prices_precisions c !! pair = Some (pricePrecision item)
         /\ min_sizes c !! pair = None)
  /\ result (get_pair_parameters client pair) (final (get_precisions client) s)
     = Return (error_dict (KeyError pair))
  /\ issued (get_pair_parameters client pair) (final (get_precisions client) s) = [].
Proof.
  intros Hinfo Hitem Hnone.
  assert (Hmin : min_sizes (loaded info) !! pair = None)
    by (by rewrite loaded_min_sizes, Hnone).
  destruct (loaded_precisions info pair) as [Hq Hp]. rewrite Hitem in Hq, Hp.
  split; [unfold result; by rewrite (get_precisions_loaded _ _ _ Hinfo)|].
  rewrite (get_precisions_final _ _ _ Hinfo).
  split; [by exists (loaded info)|].
  unfold result, issued, final.
  rewrite (get_pair_parameters_unknown client pair _ (loaded info)) by done.
  split; [reflexivity | apply drop_all].
Qed.

Lemma lot_size_filter_missing_witness :
  result (get_pair_parameters thin "ETHUSDT") (final (get_precisions thin) initial_state)
  = Return (error_dict (KeyError "ETHUSDT"))
  /\ issued (get_pair_parameters thin "ETHUSDT") (final (get_precisions thin) initial_state)
     = [].
Proof.
  exact (proj2 (proj2 (lot_size_filter_missing thin initial_state thin_listing "ETHUSDT"
                         (SymbolInfo "ETHUSDT" 3 2 [SymbolFilter "PRICE_FILTER" 0.01 0 0])
                         eq_refl eq_refl eq_refl))).
Defined.

(** X10: a symbol other than BTCUSDT that has a LOT_SIZE filter but no
    PRICE_FILTER filter in the listing has no tick size: [get_pair_parameters]
    fetches its price and then returns the error dict of a KeyError. *)
Theorem price_filter_missing (client : exchange) (s : state) (c : caches)
    (pair : string) (min_size price step_size : float)
    (price_precision quantity_precision : Z) :
  attrs s = Some c ->
  pair <> "BTCUSDT" ->
  min_sizes c !! pair = Some min_size ->
  on_ticker_price client (history s) pair = Return price ->
  prices_precisions c !! pair = Some price_precision ->
  quantity_precisions c !! pair = Some quantity_precision ->
  step_sizes c !! pair = Some step_size ->
  tick_sizes c !! pair = None ->
  result (get_pair_parameters client pair) s = Return (error_dict (KeyError pair))
  /\ issued (get_pair_parameters client pair) s = [ticker_price_call pair].
Proof.
  intros Hattrs Hne Hmin Hprice Hpp Hqp Hstep Htick.
  assert (Hget : forall (V : Type) (name : string) (field : caches -> gmap string V)
                   (v : V) (h : list call),
             field c !! pair = Some v ->
             getitem name field pair (State h (attrs s)) = (Return v, State h (attrs s))).
  { intros V name field v h Hv. unfold getitem. cbn [attrs]. by rewrite Hattrs, Hv. }
  assert (Hrun : get_pair_parameters client pair s
                 = (Return (error_dict (KeyError pair)),
                    State (history s ++ [ticker_price_call pair]) (attrs s))).
  { unfold get_pair_parameters, try_except.
    destruct s as [h a]. cbn [attrs history] in *.
    rewrite (bind_return _ _ _ _ _ (Hget _ _ _ _ _ Hmin)).
    rewrite (bind_return _ _ _ price (State (h ++ [ticker_price_call pair]) a))
      by (unfold client_ticker_price, issue; cbn [history attrs]; by rewrite Hprice).
    rewrite (bind_return _ _ _ _ _ (Hget _ _ _ _ _ Hpp)).
    rewrite (bind_return _ _ _ _ _ (Hget _ _ _ _ _ Hqp)).
    rewrite (bind_return _ _ _ _ _ (Hget _ _ _ _ _ Hstep)).
    rewrite bool_decide_eq_true_2 by done.
    unfold bind, getitem. cbn [attrs]. by rewrite Hattrs, Htick. }
  split; [unfold result | apply issued_of; unfold final]; by rewrite Hrun.
Qed.

Lemma price_filter_missing_witness :
  result (get_pair_parameters thin "LTCUSDT") (final (get_precisions thin) initial_state)
  = Return (error_dict (KeyError "LTCUSDT"))
  /\ issued (get_pair_parameters thin "LTCUSDT") (final (get_precisions thin) initial_state)
     = [ticker_price_call "LTCUSDT"].
Proof.
  apply (price_filter_missing thin (final (get_precisions thin) initial_state)
           (loaded thin_listing) "LTCUSDT" 0.001 100 0.001 2 3);
    try (vm_compute; reflexivity).
  discriminate.
Defined.

(** X11: when the listing call of [__init__] fails, the instance is left
    without its dictionaries, and every [get_pair_parameters] returns the
    error dict of an AttributeError, without calling the exchange, until a
    later [get_precisions] succeeds. *)
Theorem lookup_after_failed_init (client : exchange) (e : exn) (pair : string) :
  on_exchange_info client [] = Raise e ->
  attrs (final (init client) initial_state) = None
  /\ result (get_pair_parameters client pair) (final (init client) initial_state)
     = Return (error_dict (AttributeError "__min_sizes"))
  /\ issued (get_pair_parameters client pair) (final (init client) initial_state) = []
  /\ (forall info : list symbol_info,
         on_exchange_info client [exchange_info_call] = Return info ->
         attrs (final (get_precisions client) (final (init client) initial_state))
         = Some (loaded info)).
Proof.
  intros Hfail.
  assert (Hinit : final (init client) initial_state = State [exchange_info_call] None).
  { unfold final, init. by rewrite (get_precisions_failed client e initial_state Hfail). }
  rewrite Hinit. split; [reflexivity|]. split; [reflexivity|]. split; [reflexivity|].
  intros info Hinfo. by rewrite (get_precisions_final client info).
Qed.

Lemma lookup_after_failed_init_witness :
  attrs (final (init listing_down) initial_state) = None
  /\ result (get_pair_parameters listing_down "BTCUSDT")
       (final (init listing_down) initial_state)
     = Return (error_dict (AttributeError "__min_sizes")).
Proof.
  destruct (lookup_after_failed_init listing_down unreachable "BTCUSDT" eq_refl)
    as (Hattrs & Hres & _).
  split; assumption.
Defined.

(** X12: [get_pair_parameters] never raises, leaves the cached dictionaries
    as they are, and issues at most one call, the ticker price of the pair. *)
Theorem get_pair_parameters_reads_only (client : exchange) (pair : string) (s : state) :
  (exists v : pyval, result (get_pair_parameters client pair) s = Return v)
  /\ attrs (final (get_pair_parameters client pair) s) = attrs s
  /\ (issued (get_pair_parameters client pair) s = []
      \/ issued (get_pair_parameters client pair) s = [ticker_price_call pair]).
Proof.
  assert (Hshape : exists v : pyval,
             get_pair_parameters client pair s = (Return v, s)
             \/ get_pair_parameters client pair s
                = (Return v, State (history s ++ [ticker_price_call pair]) (attrs s))).
  { unfold get_pair_parameters, try_except, bind, getitem, client_ticker_price, issue, ret.
    destruct s as [h [c|]]; cbn [attrs history];
      [|eexists; left; reflexivity].
    destruct (min_sizes c !! pair); cbn [attrs history];
      [|eexists; left; reflexivity].
    destruct (on_ticker_price client h pair); cbn [attrs history];
      [|eexists; right; reflexivity].
    destruct (prices_precisions c !! pair); cbn [attrs history];
      [|eexists; right; reflexivity].
    destruct (quantity_precisions c !! pair); cbn [attrs history];
      [|eexists; right; reflexivity].
    destruct (step_sizes c !! pair); cbn [attrs history];
      [|eexists; right; reflexivity].
    case_bool_decide; cbn [attrs history]; [destruct (tick_sizes c !! pair)|];
      eexists; right; reflexivity. }
  destruct Hshape as (v & [Hrun|Hrun]); unfold result, issued, final; rewrite Hrun;
    cbn [fst snd attrs history].
  - split; [eauto|]. split; [reflexivity|]. left. apply drop_all.
  - split; [eauto|]. split; [reflexivity|]. right. by rewrite drop_app_length.
Qed.

(** ** Further properties: the list of futures *)

Local Open Scope nat_scope.

Lemma length_substring (n m : nat) (s : string) :
  String.length (String.substring n m s) = Nat.min m (String.length s - n).
Proof.
  revert n m.
  induction s as [|c s IH]; intros [|n] [|m];
    cbn [String.substring String.length]; rewrite ?IH; lia.
Qed.

Lemma substring_whole (m : nat) (s : string) :
  String.length s <= m -> String.substring 0 m s = s.
Proof.
  revert m. induction s as [|c s IH]; intros [|m] Hlen; cbn in *; try done; try lia.
  by rewrite IH by lia.
Qed.

Lemma substring_append (p c : string) :
  String.substring (String.length p) (String.length c) (String.append p c) = c.
Proof.
  induction p as [|a p IH]; [by apply substring_whole | exact IH].
Qed.

Lemma substring_split (n : nat) (s : string) :
  n <= String.length s ->
  s = String.append (String.substring 0 n s)
        (String.substring n (String.length s - n) s).
Proof.
  revert n. induction s as [|c s IH]; intros [|n] Hlen; simpl in *; try done; try lia.
  - by rewrite substring_whole.
  - change (String c s
            = String c (String.append (String.substring 0 n s)
                          (String.substring n (String.length s - n) s))).
    f_equal. apply IH. lia.
Qed.

Lemma length_append (p c : string) :
  String.length (String.append p c) = String.length p + String.length c.
Proof.
  induction p as [|a p IH]; [reflexivity|].
  change (S (String.length (String.append p c)) = S (String.length p) + String.length c).
  by rewrite IH.
Qed.

(** For a coin of four characters, [s[-4:] == coin] says that [s] ends with
    the coin. *)
Lemma last4_suffix (s coin : string) :
  String.length coin = 4 ->
  last4 s = coin <-> exists p : string, s = String.append p coin.
Proof.
  intros Hcoin. unfold last4. split.
  - intros Hlast.
    assert (Hlen : 4 <= String.length s).
    { pose proof (length_substring (String.length s - 4) 4 s) as Hl.
      rewrite Hlast, Hcoin in Hl. lia. }
    exists (String.substring 0 (String.length s - 4) s).
    pose proof (substring_split (String.length s - 4) s) as Hsplit.
    replace (String.length s - (String.length s - 4)) with 4 in Hsplit by lia.
    rewrite Hlast in Hsplit. apply Hsplit. lia.
  - intros [p ->]. rewrite length_append, Hcoin.
    replace (String.length p + 4 - 4) with (String.length p) by lia.
    rewrite <- Hcoin. apply substring_append.
Qed.

Lemma last4_short (s : string) : String.length s < 4 -> last4 s = s.
Proof.
  intros Hlen. unfold last4.
  replace (String.length s - 4) with 0 by lia. apply substring_whole. lia.
Qed.

Lemma length_last4 (s : string) : String.length (last4 s) = Nat.min 4 (String.length s).
Proof. unfold last4. rewrite length_substring. lia. Qed.

#[local] Instance string_le_total : Total string_le.
Proof. intros s1 s2. apply String.leb_total. Qed.

Lemma get_futures_run (client : exchange) (coin : string) (s : state) :
  get_futures client coin s
  = (match on_exchange_info client (history s) with
     | Return response =>
         Return (Futures (sort_strings
                            (map symbol
                               (List.filter
                                  (fun r => bool_decide (last4 (symbol r) = coin))
                                  response))))
     | Raise e => Return (FuturesError e)
     end,
     State (history s ++ [exchange_info_call]) (attrs s)).
Proof.
  unfold get_futures, try_except, bind, client_exchange_info, issue, ret.
  by destruct (on_exchange_info client (history s)).
Qed.

Lemma get_futures_elem (client : exchange) (coin : string) (s : state)
    (response : list symbol_info) (all_futures : list string) (sym : string) :
  on_exchange_info client (history s) = Return response ->
  result (get_futures client coin) s = Return (Futures all_futures) ->
  sym ∈ all_futures <-> sym ∈ map symbol response /\ last4 sym = coin.
Proof.
  intros Hinfo. unfold result. rewrite get_futures_run, Hinfo. cbn [fst].
  intros [= <-]. unfold sort_strings. rewrite merge_sort_Permutation.
  rewrite !list_elem_of_In, !in_map_iff. split.
  - intros (r & <- & Hin). apply filter_In in Hin as [Hin Hlast].
    apply bool_decide_eq_true in Hlast. eauto.
  - intros [(r & <- & Hin) Hlast]. exists r. split; [done|].
    apply filter_In. split; [done|]. by apply bool_decide_eq_true.
Qed.

(** X13: [get_futures] returns the symbols of the listing whose last four
    characters are the coin, each as often as it is listed, in ascending
    lexicographic order; when the listing call raises it returns the
    exception itself. Neither way does it touch the cached dictionaries. *)
Theorem get_futures_sorted (client : exchange) (coin : string) (s : state) :
  (forall response : list symbol_info,
      on_exchange_info client (history s) = Return response ->
      exists all_futures : list string,
        result (get_futures client coin) s = Return (Futures all_futures)
        /\ Sorted string_le all_futures
        /\ all_futures
           ≡ₚ map symbol
                (List.filter (fun r => bool_decide (last4 (symbol r) = coin)) response))
  /\ (forall e : exn,
         on_exchange_info client (history s) = Raise e ->
         result (get_futures client coin) s = Return (FuturesError e))
  /\ attrs (final (get_futures client coin) s) = attrs s.
Proof.
  unfold result, final. rewrite get_futures_run. cbn [fst snd attrs].
  split; [|split; [|reflexivity]].
  - intros response ->. eexists. split; [reflexivity|]. unfold sort_strings.
    split; [apply (Sorted_merge_sort string_le) | apply merge_sort_Permutation].
  - by intros e ->.
Qed.

(** X14: for a coin of four characters, a symbol is in the list
    [get_futures] returns exactly when it is listed and ends with the coin. *)
Theorem get_futures_suffix (client : exchange) (coin : string) (s : state)
    (response : list symbol_info) (all_futures : list string) (sym : string) :
  String.length coin = 4 ->
  on_exchange_info client (history s) = Return response ->
  result (get_futures client coin) s = Return (Futures all_futures) ->
  sym ∈ all_futures
  <-> sym ∈ map symbol response /\ exists base : string, sym = String.append base coin.
Proof.
  intros Hcoin Hinfo Hres.
  rewrite (get_futures_elem _ _ _ _ _ _ Hinfo Hres). by rewrite (last4_suffix _ _ Hcoin).
Qed.

Lemma filter_none {A : Type} (f : A -> bool) (l : list A) :
  (forall x : A, x ∈ l -> f x = false) -> List.filter f l = [].
Proof.
  induction l as [|x l IH]; intros Hnone; [done|]. cbn.
  rewrite (Hnone x) by apply list_elem_of_here.
  apply IH. intros y Hy. apply Hnone. by apply list_elem_of_further.
Qed.

(** X15: the comparison is with the last four characters only: for a coin of
    more than four characters [get_futures] returns the empty list whatever
    the listing, and for a coin of fewer than four it returns the listed
    symbols that are equal to the coin and no other. *)
Theorem get_futures_other_lengths (client : exchange) (coin : string) (s : state)
    (response : list symbol_info) :
  on_exchange_info client (history s) = Return response ->
  (4 < String.length coin -> result (get_futures client coin) s = Return (Futures []))
  /\ (String.length coin < 4 ->
      exists all_futures : list string,
        result (get_futures client coin) s = Return (Futures all_futures)
        /\ forall sym : string,
             sym ∈ all_futures <-> sym ∈ map symbol response /\ sym = coin).
Proof.
  intros Hinfo.
  assert (Hres : result (get_futures client coin) s
                 = Return (Futures (sort_strings
                                      (map symbol
                                         (List.filter
                                            (fun r => bool_decide (last4 (symbol r) = coin))
                                            response)))))
    by (unfold result; by rewrite get_futures_run, Hinfo).
  split.
  - intros Hlen. rewrite Hres, filter_none; [reflexivity|].
    intros r _. apply bool_decide_eq_false. intros Hlast.
    pose proof (length_last4 (symbol r)) as Hl. rewrite Hlast in Hl. lia.
  - intros Hlen. eexists. split; [exact Hres|]. intros sym.
    rewrite (get_futures_elem _ _ _ _ _ sym Hinfo Hres).
    split; intros [Hin Hsym]; (split; [exact Hin|]).
    + pose proof (length_last4 sym) as Hl. rewrite Hsym in Hl.
      rewrite <- Hsym. symmetry. apply last4_short. lia.
    + rewrite Hsym. apply last4_short. lia.
Qed.

Lemma get_futures_sorted_witness :
  result (get_futures shuffled "USDT") initial_state
  = Return (Futures ["BTCUSDT"; "ETHUSDT"; "ETHUSDT"])
  /\ exists all_futures : list string,
       result (get_futures shuffled "USDT") initial_state = Return (Futures all_futures)
       /\ Sorted string_le all_futures
       /\ all_futures ≡ₚ ["ETHUSDT"; "BTCUSDT"; "ETHUSDT"].
Proof.
  split; [vm_compute; reflexivity|].
  exact (proj1 (get_futures_sorted shuffled "USDT" initial_state)
           [eth_info; SymbolInfo "BTCBUSD" 3 1 []; btc_info; eth_info] eq_refl).
Defined.

Lemma get_futures_suffix_witness :
  "BTCBUSD" ∈ ["BTCBUSD"]
  <-> "BTCBUSD" ∈ ["ETHUSDT"; "BTCBUSD"; "BTCUSDT"; "ETHUSDT"]
      /\ exists base : string, "BTCBUSD" = String.append base "BUSD".
Proof.
  apply (get_futures_suffix shuffled "BUSD" initial_state
           [eth_info; SymbolInfo "BTCBUSD" 3 1 []; btc_info; eth_info]).
  - reflexivity.
  - reflexivity.
  - vm_compute. reflexivity.
Defined.

Lemma get_futures_other_lengths_witness :
  result (get_futures shuffled "BTCUSDT") initial_state = Return (Futures [])
  /\ (exists all_futures : list string,
         result (get_futures short_symbols "BTC") initial_state
         = Return (Futures all_futures)
         /\ forall sym : string,
              sym ∈ all_futures <-> sym ∈ ["ETHBTC"; "BTC"; "ETH"] /\ sym = "BTC").
Proof.
  split.
  - apply (proj1 (get_futures_other_lengths shuffled "BTCUSDT" initial_state
                    [eth_info; SymbolInfo "BTCBUSD" 3 1 []; btc_info; eth_info] eq_refl)).
    vm_compute. lia.
  - apply (proj2 (get_futures_other_lengths short_symbols "BTC" initial_state
                    [SymbolInfo "ETHBTC" 3 2 []; SymbolInfo "BTC" 3 2 [];
                     SymbolInfo "ETH" 3 2 []] eq_refl)).
    vm_compute. lia.
Defined.

(** ** Further properties: account settings *)

(** [set_leverage] and [set_margin_type] issue their one call and return
    [None], whatever the exchange answers. *)
Lemma settings_return_none (client : settings_exchange) (pair margin_type : string)
    (leverage : Z) (h : list setting_call) :
  set_leverage client pair leverage h
  = (Return PyNone, h ++ [change_leverage_call pair leverage 6000])
  /\ set_margin_type client pair margin_type h
     = (Return PyNone, h ++ [change_margin_type_call pair margin_type 6000]).
Proof.
  unfold set_leverage, set_margin_type.
  by destruct (on_change_leverage client h pair leverage 6000),
       (on_change_margin_type client h pair margin_type 6000).
Qed.

Lemma change_position_mode_run (client : settings_exchange) (mode : string)
    (h : list setting_call) :
  change_position_mode client mode h
  = (Return PyNone,
     h ++ get_position_mode_call
          :: match on_get_position_mode client h with
             | Raise _ => []
             | Return is_dual_side =>
                 if is_dual_side && bool_decide (mode = "one-way")
                 then [change_position_mode_call false 6000]
                 else if negb is_dual_side && bool_decide (mode = "hedge")
                      then [change_position_mode_call true 6000]
                      else []
             end).
Proof.
  unfold change_position_mode.
  destruct (on_get_position_mode client h) as [is_dual_side|e]; [|reflexivity].
  destruct (is_dual_side && bool_decide (mode = "one-way"));
    [|destruct (negb is_dual_side && bool_decide (mode = "hedge"))];
    try destruct (on_change_position_mode client _ _ _);
    rewrite <- ?app_assoc; reflexivity.
Qed.

(** X16: [change_position_mode] asks the exchange for a change only to flip
    the mode it has just been told: dualSidePosition false is requested only
    when the exchange reports hedge mode and the mode asked for is "one-way",
    true only when it reports one-way mode and "hedge" is asked for.  When the
    mode is already the one asked for, when the mode string is any other, or
    when the query raises, no change is requested.  It returns [None] in every
    case, also when the change is rejected. *)
Theorem change_position_mode_only_flips (client : settings_exchange) (mode : string)
    (h : list setting_call) :
  fst (change_position_mode client mode h) = Return PyNone
  /\ (forall b : bool,
         b ∈ mode_changes (drop (length h) (snd (change_position_mode client mode h))) ->
         on_get_position_mode client h = Return (negb b)
         /\ mode = (if b then "hedge" else "one-way"))
  /\ (forall is_dual_side : bool,
         on_get_position_mode client h = Return is_dual_side ->
         mode = (if is_dual_side then "one-way" else "hedge") ->
         mode_changes (drop (length h) (snd (change_position_mode client mode h)))
         = [negb is_dual_side])
  /\ (forall is_dual_side : bool,
         on_get_position_mode client h = Return is_dual_side ->
         mode <> (if is_dual_side then "one-way" else "hedge") ->
         drop (length h) (snd (change_position_mode client mode h))
         = [get_position_mode_call]).
Proof.
  rewrite change_position_mode_run. cbn [fst snd]. rewrite drop_app_length.
  split; [reflexivity|]. split; [|split].
  - intros b. destruct (on_get_position_mode client h) as [[|]|e]; cbn;
      try case_bool_decide; cbn; rewrite ?elem_of_cons, ?elem_of_nil;
      try (intros [->|[]]; by subst); by intros [].
  - intros is_dual_side -> ->. by destruct is_dual_side.
  - intros is_dual_side -> Hne.
    destruct is_dual_side; cbn; by rewrite bool_decide_eq_false_2.
Qed.

Lemma change_position_mode_only_flips_witness :
  mode_changes (drop (length (@nil setting_call))
                  (snd (change_position_mode hedging "one-way" [])))
  = [false]
  /\ drop (length (@nil setting_call)) (snd (change_position_mode hedging "hedge" []))
     = [get_position_mode_call].
Proof.
  destruct (change_position_mode_only_flips hedging "one-way" []) as (_ & _ & Hflip & _).
  destruct (change_position_mode_only_flips hedging "hedge" []) as (_ & _ & _ & Hkeep).
  split.
  - exact (Hflip true eq_refl eq_refl).
  - apply (Hkeep true eq_refl). discriminate.
Defined.
